(** * Seat-allocation core of the ATT bus booking application

    A shallow embedding of the parts of the repository that decide seat
    allocation and payment reconciliation:
    - the [bookings] and [seats] tables of the first migration
      (src/unnamed/part_005), with the primary keys, foreign keys, the
      [idx_unique_active_booking] partial unique index and the
      [trg_bookings_updated] trigger that every write goes through, and
      the row-level security policies of [bookings];
    - the [get_seat_status] SQL function (same file), run with the
      caller's rights;
    - the seed block that creates a bus's seats (same file);
    - the booking form's [onSubmit] (src/unnamed/part_001) and the seat
      map's [SeatMap] layout and [SeatButton] (same file);
    - the admin Bookings screen (src/unnamed/part_003): its copy of the
      table, its status buttons, [filterBookings] and [exportBookings];
    - the checkout function and the Hubtel webhook handlers
      (src/supabase/functions/hubtel-create-payment/index.ts and
      hubtel-webhook/index.ts), with the loading of their modules.

    UUID columns are modelled by the 128-bit value they hold (a [Z]);
    NUMERIC(10,2) amounts by their value in hundredths; timestamps by [Z]. *)

From Stdlib Require Import List ZArith String Ascii Bool Lia Permutation Sorted.
Import ListNotations.

Open Scope Z_scope.

(** ** JSON values received by the edge functions *)

Inductive json : Type :=
| JNull
| JBool (b : bool)
| JNum (z : Z)
| JStr (s : string).

(** A property read [payload.k]: [None] is [undefined]. *)
Definition jsval := option json.

(** JavaScript truthiness (integral numbers only; NaN does not arise from
    JSON.parse). *)
Definition truthy (v : jsval) : bool :=
  match v with
  | None => false
  | Some JNull => false
  | Some (JBool b) => b
  | Some (JNum z) => negb (z =? 0)
  | Some (JStr s) => negb (String.eqb s EmptyString)
  end.

(** [a || b] *)
Definition js_or (a b : jsval) : jsval := if truthy a then a else b.

(** [a ?? b] *)
Definition js_coalesce (a b : jsval) : jsval :=
  match a with
  | None | Some JNull => b
  | _ => a
  end.

(** A parsed JSON object. [JSON.parse] keeps the last of duplicated keys. *)
Definition payload := list (string * json).

Definition get (p : payload) (k : string) : jsval :=
  match find (fun kv => String.eqb (fst kv) k) (rev p) with
  | Some kv => Some (snd kv)
  | None => None
  end.

(** ** The tables *)

(** [bookings.status] is TEXT; the code only ever writes these three. *)
Inductive Status : Type := Pending | Paid | Cancelled.

Definition status_eqb (a b : Status) : bool :=
  match a, b with
  | Pending, Pending | Paid, Paid | Cancelled, Cancelled => true
  | _, _ => false
  end.

Record Booking : Type := mkBooking {
  id : Z;
  full_name : string;
  passenger_class : string;
  email : string;
  phone : string;
  emergency_name : string;
  emergency_phone : string;
  pickup_point_id : Z;
  destination_id : Z;
  bus_id : Z;
  seat_number : Z;
  referral_id : option Z;
  amount : Z;
  status : Status;
  payment_reference : option json;
  receipt_url : option json;
  created_at : Z;
  updated_at : Z
}.

Record Seat : Type := mkSeat {
  seat_bus_id : Z;
  seat_seat_number : Z;
  seat_active : bool
}.

Record DB : Type := mkDB {
  buses : list Z;
  pickup_points : list Z;
  destinations : list Z;
  referrals : list Z;
  seats : list Seat;
  bookings : list Booking
}.

Definition with_bookings (d : DB) (bs : list Booking) : DB :=
  mkDB (buses d) (pickup_points d) (destinations d) (referrals d) (seats d) bs.

Inductive result (A E : Type) : Type :=
| Ok (a : A)
| Err (e : E).
Arguments Ok {A E} a.
Arguments Err {A E} e.

Inductive DbError : Type :=
| PkViolation
| FkViolation
| UniqueViolation
| InvalidUuid (s : string)
| RlsViolation.

(** The predicate of [idx_unique_active_booking]:
    [WHERE status IN ('pending','paid')]. *)
Definition in_active_index (r : Booking) : bool :=
  match status r with
  | Pending | Paid => true
  | Cancelled => false
  end.

(** The unique index rejects a row version [r] entering the index when
    another live row (a different [id]) has the same
    [(bus_id, seat_number)] and is in the index too. *)
Definition index_conflict (t : list Booking) (r : Booking) : bool :=
  in_active_index r &&
  existsb (fun r' => negb (id r' =? id r) && (bus_id r' =? bus_id r) &&
                     (seat_number r' =? seat_number r) && in_active_index r') t.

Definition memZ (z : Z) (l : list Z) : bool := existsb (Z.eqb z) l.

(** Foreign keys of [bookings]: pickup point, destination, bus and the
    optional referral. There is none from [seat_number] to [seats]. *)
Definition fk_ok (d : DB) (r : Booking) : bool :=
  memZ (pickup_point_id r) (pickup_points d) &&
  memZ (destination_id r) (destinations d) &&
  memZ (bus_id r) (buses d) &&
  match referral_id r with
  | None => true
  | Some x => memZ x (referrals d)
  end.

(** [INSERT INTO bookings]: the primary key, the foreign keys and the
    partial unique index are all checked; any violation aborts the
    statement and leaves the table as it was. *)
Definition insert_booking (d : DB) (r : Booking) : result DB DbError :=
  if existsb (fun r' => id r' =? id r) (bookings d) then Err PkViolation
  else if negb (fk_ok d r) then Err FkViolation
  else if index_conflict (bookings d) r then Err UniqueViolation
  else Ok (with_bookings d (bookings d ++ [r])).

(** The columns a client [.update(...)] sets. Unset fields keep their
    value. *)
Record Patch : Type := mkPatch {
  p_status : option Status;
  p_payment_reference : option json;
  p_receipt_url : option json
}.

Definition opt_set {A} (o : option A) (old : A) : A :=
  match o with Some v => v | None => old end.

(** The new row version: the patch, then the [BEFORE UPDATE] trigger
    [update_updated_at_column] setting [updated_at = now()]. *)
Definition apply_patch (now : Z) (p : Patch) (r : Booking) : Booking :=
  mkBooking (id r) (full_name r) (passenger_class r) (email r) (phone r)
    (emergency_name r) (emergency_phone r) (pickup_point_id r)
    (destination_id r) (bus_id r) (seat_number r) (referral_id r) (amount r)
    (opt_set (p_status p) (status r))
    (match p_payment_reference p with
     | Some v => Some v
     | None => payment_reference r
     end)
    (match p_receipt_url p with
     | Some v => Some v
     | None => receipt_url r
     end)
    (created_at r) now.

Definition replace_row (i : Z) (r' : Booking) (t : list Booking) : list Booking :=
  map (fun x => if id x =? i then r' else x) t.

(** [UPDATE bookings SET ... WHERE id = i] at time [now]: returns the new
    state and the updated row ([None] when no row has that id). *)
Definition update_booking (d : DB) (i : Z) (p : Patch) (now : Z)
  : result (DB * option Booking) DbError :=
  match find (fun r => id r =? i) (bookings d) with
  | None => Ok (d, None)
  | Some r =>
      let r' := apply_patch now p r in
      if index_conflict (bookings d) r' then Err UniqueViolation
      else Ok (with_bookings d (replace_row i r' (bookings d)), Some r')
  end.

(** Number of rows on [(bus, seat)] whose status is pending or paid. *)
Definition holds (b n : Z) (r : Booking) : bool :=
  (bus_id r =? b) && (seat_number r =? n) && in_active_index r.

Definition count_active (b n : Z) (t : list Booking) : nat :=
  List.length (filter (holds b n) t).

(** ** Row-level security on [bookings] (src/unnamed/part_005) *)

(** The database role a request runs as: [anon] for the public pages
    without a session, [authenticated] with a signed-in session, and the
    service role of the edge functions' service key, which bypasses RLS. *)
Inductive Role : Type := Anon | Authenticated | ServiceRole.

(** The SELECT policies of [bookings]: only "Authenticated can read
    bookings" ([FOR SELECT TO authenticated USING (true)]); no policy
    admits [anon]. *)
Definition can_read_bookings (role : Role) : bool :=
  match role with
  | Anon => false
  | Authenticated | ServiceRole => true
  end.

(** The rows of [bookings] a query run as [role] sees. *)
Definition visible_bookings (role : Role) (d : DB) : list Booking :=
  if can_read_bookings role then bookings d else [].

(** [.insert(row).select(...)]: PostgREST sends [INSERT ... RETURNING].
    The INSERT policy "Anyone can create booking" is [WITH CHECK (true)];
    because the new row is returned, RLS also checks it against the SELECT
    policies, before the constraints and the indexes, and a role no SELECT
    policy admits gets "new row violates row-level security policy": the
    statement inserts nothing. *)
Definition insert_returning (role : Role) (d : DB) (r : Booking) : result DB DbError :=
  if can_read_bookings role then insert_booking d r else Err RlsViolation.

(** ** The booking form ([BookingForm], src/unnamed/part_001) *)

(** The values the zod [schema] lets through; it strips every other key, so
    the inserted payload never carries [status], [id] or the timestamps. *)
Record FormValues : Type := mkFormValues {
  fv_full_name : string;
  fv_passenger_class : string;
  fv_email : string;
  fv_phone : string;
  fv_emergency_name : string;
  fv_emergency_phone : string;
  fv_pickup_point_id : Z;
  fv_destination_id : Z;
  fv_referral_id : option Z;
  fv_bus_id : Z;
  fv_seat_number : Z
}.

(** The row [insert({ ...values, amount })] creates: [id] from
    [gen_random_uuid()], [status] from its default ['pending'], both
    timestamps from [now()]. *)
Definition booking_of_form (v : FormValues) (amt : Z) (fresh now : Z) : Booking :=
  mkBooking fresh (fv_full_name v) (fv_passenger_class v) (fv_email v)
    (fv_phone v) (fv_emergency_name v) (fv_emergency_phone v)
    (fv_pickup_point_id v) (fv_destination_id v) (fv_bus_id v)
    (fv_seat_number v) (fv_referral_id v) amt Pending None None now now.

(** [onSubmit], run with the caller's role (the public page without a
    session runs as [anon]): a single [insert(...).select(...)]; the seats
    table is not consulted. *)
Definition onSubmit (role : Role) (d : DB) (v : FormValues) (amt : Z) (fresh now : Z)
  : result DB DbError :=
  insert_returning role d (booking_of_form v amt fresh now).

(** ** The availability view: [get_seat_status] (src/unnamed/part_005) *)

Inductive Avail : Type := Available | Taken.

Record SeatStatus : Type := mkSeatStatus {
  ss_seat_number : Z;
  ss_is_active : bool;
  ss_status : Avail
}.

(** The [CASE WHEN EXISTS (...)] column for one seat row. *)
Definition seat_row_status (d : DB) (s : Seat) : SeatStatus :=
  mkSeatStatus (seat_seat_number s) (seat_active s)
    (if existsb (fun b => (bus_id b =? seat_bus_id s) &&
                          (seat_number b =? seat_seat_number s) &&
                          in_active_index b) (bookings d)
     then Taken else Available).

(** [ORDER BY s.seat_number] *)
Fixpoint insert_by_seat (x : SeatStatus) (l : list SeatStatus) : list SeatStatus :=
  match l with
  | [] => [x]
  | y :: l' =>
      if ss_seat_number x <=? ss_seat_number y then x :: l
      else y :: insert_by_seat x l'
  end.

Definition order_by_seat (l : list SeatStatus) : list SeatStatus :=
  fold_right insert_by_seat [] l.

(** The query of [get_seat_status] over the rows of [d]. *)
Definition seat_status_view (d : DB) (bus : Z) : list SeatStatus :=
  order_by_seat
    (map (seat_row_status d) (filter (fun s => seat_bus_id s =? bus) (seats d))).

(** [get_seat_status] is [LANGUAGE sql] without [SECURITY DEFINER]: it
    runs with the caller's rights, so the [EXISTS] subquery sees only the
    [bookings] rows RLS shows the caller; [seats] is readable by everyone
    ("Public can select seats"). *)
Definition get_seat_status (role : Role) (d : DB) (bus : Z) : list SeatStatus :=
  seat_status_view (with_bookings d (visible_bookings role d)) bus.

(** [SeatButton]: [disabled = !seat.is_active || seat.status === "taken"];
    a disabled button never calls [onSelect]. *)
Definition seat_disabled (s : SeatStatus) : bool :=
  negb (ss_is_active s) ||
  match ss_status s with Taken => true | Available => false end.

Definition seat_selectable (s : SeatStatus) : bool := negb (seat_disabled s).

(** ** Reachable states of the database *)

(** Every write to [bookings] in the repository is an insert (the booking
    form, when RLS lets it through; any row may be inserted) or an update
    by id (the admin screen, the webhooks); writes to the other tables
    leave [bookings] as it is (a bus with bookings cannot be deleted: the foreign key has no
    cascade). *)
Inductive step : DB -> DB -> Prop :=
| step_insert d r d' : insert_booking d r = Ok d' -> step d d'
| step_update d i p now d' o : update_booking d i p now = Ok (d', o) -> step d d'
| step_other d d' : bookings d' = bookings d -> step d d'.

Inductive reachable : DB -> Prop :=
| reach_init d : bookings d = [] -> reachable d
| reach_step d d' : reachable d -> step d d' -> reachable d'.

(** The primary key and the partial unique index, as properties of a
    table. *)
Definition ledger_ok (t : list Booking) : Prop :=
  NoDup (map id t) /\ forall b n, (count_active b n t <= 1)%nat.

(** ** The admin Bookings screen (src/unnamed/part_003) *)

(** The buttons rendered for a booking of status [s]: "Mark Paid" and
    "Cancel" when pending, "Restore" when cancelled, none when paid. *)
Definition admin_actions (s : Status) : list Status :=
  match s with
  | Pending => [Paid; Cancelled]
  | Cancelled => [Pending]
  | Paid => []
  end.

Definition admin_offers (from to : Status) : Prop := In to (admin_actions from).

(** [updateBookingStatus]: [.update({ status: newStatus }).eq("id", ...)]. *)
Definition updateBookingStatus (d : DB) (i : Z) (s : Status) (now : Z)
  : result (DB * option Booking) DbError :=
  update_booking d i (mkPatch (Some s) None None) now.

(** ** PostgreSQL's [uuid_in] ([string_to_uuid] in utils/adt/uuid.c) *)

Definition hex_val (c : ascii) : option Z :=
  let n := Z.of_nat (nat_of_ascii c) in
  if (48 <=? n) && (n <=? 57) then Some (n - 48)
  else if (97 <=? n) && (n <=? 102) then Some (n - 87)
  else if (65 <=? n) && (n <=? 70) then Some (n - 55)
  else None.

(** Reads [k] more bytes, two hex digits each; after an odd byte index
    below 15 one hyphen may follow. *)
Fixpoint uuid_bytes (k : nat) (i : Z) (cs : list ascii) (acc : Z)
  : option (Z * list ascii) :=
  match k with
  | O => Some (acc, cs)
  | S k' =>
      match cs with
      | c1 :: c2 :: rest =>
          match hex_val c1, hex_val c2 with
          | Some h1, Some h2 =>
              let rest' :=
                match rest with
                | "-"%char :: r => if Z.odd i && (i <? 15) then r else rest
                | _ => rest
                end in
              uuid_bytes k' (i + 1) rest' (acc * 256 + h1 * 16 + h2)
          | _, _ => None
          end
      | _ => None
      end
  end.

Definition string_to_uuid (s : string) : option Z :=
  let cs := list_ascii_of_string s in
  let '(braces, cs1) :=
    match cs with
    | "{"%char :: r => (true, r)
    | _ => (false, cs)
    end in
  match uuid_bytes 16 0 cs1 0 with
  | None => None
  | Some (v, rest) =>
      let rest' :=
        if braces then match rest with "}"%char :: r => Some r | _ => None end
        else Some rest in
      match rest' with
      | Some [] => Some v
      | _ => None
      end
  end.

(** ** Printing values as JavaScript does *)

Fixpoint dec_digits (fuel : nat) (n : Z) (acc : list ascii) : list ascii :=
  match fuel with
  | O => acc
  | S f =>
      let acc' := ascii_of_nat (48 + Z.to_nat (n mod 10)) :: acc in
      if n <? 10 then acc' else dec_digits f (n / 10) acc'
  end.

(** [String(z)] for an integer below 10^21 in magnitude. *)
Definition z_to_dec (z : Z) : string :=
  let a := Z.abs z in
  let ds := string_of_list_ascii (dec_digits (S (Z.to_nat (Z.log2 a))) a []) in
  if z <? 0 then ("-" ++ ds)%string else ds.

(** The string a filter value becomes in [`${column}=eq.${value}`]. *)
Definition js_to_string (v : jsval) : string :=
  match v with
  | None => "undefined"
  | Some JNull => "null"
  | Some (JBool true) => "true"
  | Some (JBool false) => "false"
  | Some (JNum z) => z_to_dec z
  | Some (JStr s) => s
  end.

(** ** The Hubtel webhook (src/supabase/functions/hubtel-webhook/index.ts) *)

(** What [await req.json()] leaves in [payload]: an object; [null]; any
    other JSON value (number, string, boolean, array: its property reads
    are [undefined]); or a parse failure, caught, leaving [{}]. *)
Inductive ParsedBody : Type :=
| PObject (p : payload)
| PNull
| PPrimitive
| PInvalid.

(** [None]: reading a property of [null] throws a TypeError. *)
Definition payload_of (b : ParsedBody) : option payload :=
  match b with
  | PObject p => Some p
  | PNull => None
  | PPrimitive | PInvalid => Some []
  end.

Definition ext_status (p : payload) : jsval :=
  js_or (js_or (js_or (get p "status") (get p "Status"))
               (get p "transactionStatus")) (get p "TransactionStatus").

Definition ext_reference (p : payload) : jsval :=
  js_or (js_or (js_or (get p "clientReference") (get p "ClientReference"))
               (get p "checkoutId")) (get p "CheckoutId").

Definition ext_transaction_id (p : payload) : jsval :=
  js_or (get p "transactionId") (get p "TransactionId").

Definition ext_receipt_url (p : payload) : jsval :=
  js_or (js_or (get p "receiptUrl") (get p "ReceiptUrl")) (get p "receiptURL").

Definition paidStates : list string :=
  ["Success"; "Successful"; "Completed"; "PAID"; "Paid"]%string.

(** [typeof status === "string" && paidStates.includes(status)] *)
Definition is_paid (st : jsval) : bool :=
  match st with
  | Some (JStr s) => existsb (String.eqb s) paidStates
  | _ => false
  end.

(** [updates]: [payment_reference: transactionId ?? reference] (an
    [undefined] member is dropped by JSON.stringify), [status = "paid"] when
    [isPaid], [receipt_url] when [receiptUrl] is truthy. *)
Definition webhook_updates (p : payload) : Patch :=
  mkPatch (if is_paid (ext_status p) then Some Paid else None)
    (js_coalesce (ext_transaction_id p) (ext_reference p))
    (if truthy (ext_receipt_url p) then ext_receipt_url p else None).

Inductive HandlerError : Type :=
| HDb (e : DbError)
| HTypeError.

Inductive Response : Type :=
| RespPreflight
| RespOk
| RespError (e : HandlerError).

(** The response code of a response. *)
Definition resp_code (r : Response) : Z :=
  match r with
  | RespPreflight | RespOk => 200
  | RespError _ => 500
  end.

(** The body of the handler after the preflight test: the response, the
    database afterwards, the row returned by [.select(...).maybeSingle()]
    and [isPaid]. The filter [.eq("id", reference)] sends the reference
    as text; PostgreSQL casts it to [uuid], and a malformed one is a
    query error. *)
Definition webhook_core (body : ParsedBody) (d : DB) (now : Z)
  : Response * DB * option Booking * bool :=
  match payload_of body with
  | None => (RespError HTypeError, d, None, false)
  | Some p =>
      let reference := ext_reference p in
      if negb (truthy reference) then (RespOk, d, None, false)
      else
        let paid := is_paid (ext_status p) in
        let s := js_to_string reference in
        match string_to_uuid s with
        | None => (RespError (HDb (InvalidUuid s)), d, None, paid)
        | Some i =>
            match update_booking d i (webhook_updates p) now with
            | Err e => (RespError (HDb e), d, None, paid)
            | Ok (d', o) => (RespOk, d', o, paid)
            end
        end
  end.

(** [Deno.serve] of hubtel-webhook/index.ts. *)
Definition hubtel_webhook (is_options : bool) (body : ParsedBody) (d : DB) (now : Z)
  : Response * DB :=
  if is_options then (RespPreflight, d)
  else let '(r, d', _, _) := webhook_core body d now in (r, d').

(** ** The SMS-sending webhook (second half of
    src/supabase/functions/hubtel-create-payment/index.ts) *)

Definition is_digit (c : ascii) : bool :=
  let n := nat_of_ascii c in (48 <=? n)%nat && (n <=? 57)%nat.

(** [normalizeGhanaMsisdn]; [None] is [null]. *)
Definition normalizeGhanaMsisdn (input : string) : option string :=
  if String.eqb input EmptyString then None
  else
    let digits := filter (fun c => is_digit c || Ascii.eqb c "+"%char)
                    (list_ascii_of_string input) in
    match digits with
    | "+"%char :: r => Some (string_of_list_ascii r)
    | "2"%char :: "3"%char :: "3"%char :: _ => Some (string_of_list_ascii digits)
    | "0"%char :: r =>
        if (10 <=? List.length digits)%nat
        then Some ("233" ++ string_of_list_ascii r)%string
        else Some (string_of_list_ascii digits)
    | _ => Some (string_of_list_ascii digits)
    end.

Definition hex_char (n : Z) : ascii :=
  if n <? 10 then ascii_of_nat (48 + Z.to_nat n) else ascii_of_nat (87 + Z.to_nat n).

(** [uuid_out]: 32 lowercase hex digits, hyphens after the 8th, 12th,
    16th and 20th. *)
Definition uuid_text (v : Z) : string :=
  string_of_list_ascii
    (flat_map (fun k =>
       hex_char ((v / 16 ^ (31 - Z.of_nat k)) mod 16) ::
       (if existsb (Nat.eqb k) [7; 11; 15; 19]%nat then ["-"%char] else []))
     (seq 0 32)).

(** [Number(x).toFixed(2)] for an amount of [c] hundredths. *)
Definition fixed2 (c : Z) : string :=
  let a := Z.abs c in
  let r := a mod 100 in
  ((if (c <? 0)%Z then "-" else EmptyString) ++ z_to_dec (a / 100) ++ "." ++
   (if (r <? 10)%Z then "0" else EmptyString) ++ z_to_dec r)%string.

Definition nonempty (s : string) : bool := negb (String.eqb s EmptyString).

(** Names looked up by [sendPaidConfirmationSms] ([""] when missing). *)
Record SmsEnv : Type := mkSmsEnv {
  pickup_name : Z -> string;
  destination_name : Z -> string;
  bus_name : Z -> string
}.

(** The text [sendPaidConfirmationSms] builds for the updated row. *)
Definition sms_message (env : SmsEnv) (b : Booking) : string :=
  let route := String.concat " -> "
                 (filter nonempty [pickup_name env (pickup_point_id b);
                                   destination_name env (destination_id b)]) in
  let seat := if seat_number b =? 0 then EmptyString
              else ("Seat " ++ z_to_dec (seat_number b))%string in
  let amt := ("GHS " ++ fixed2 (amount b))%string in
  let ref := substring 0 8 (uuid_text (id b)) in
  let parts := filter nonempty
    ["ATT Transport: Payment confirmed.";
     (if nonempty route then route ++ "." else EmptyString);
     (if nonempty seat then seat ++ "." else EmptyString);
     (if nonempty amt then amt ++ "." else EmptyString);
     "Ref: " ++ ref ++ ".";
     "Show SMS at boarding."]%string in
  substring 0 300 (String.concat " " parts).

(** The [(to, content)] the task hands to [sendSmsViaHubtel], or [None]
    when it returns early (no phone, or nothing left after
    normalisation). *)
Definition sendPaidConfirmationSms (env : SmsEnv) (b : Booking)
  : option (string * string) :=
  if negb (nonempty (phone b)) then None
  else match normalizeGhanaMsisdn (phone b) with
       | None => None
       | Some to =>
           if negb (nonempty to) then None else Some (to, sms_message env b)
       end.

(** [Deno.serve] of the SMS-sending copy: the response, the database, and
    the rows handed to [EdgeRuntime.waitUntil(sendPaidConfirmationSms(...))]
    after the update has returned. *)
Definition hubtel_webhook_sms (is_options : bool) (body : ParsedBody) (d : DB) (now : Z)
  : Response * DB * list Booking :=
  if is_options then (RespPreflight, d, [])
  else
    let '(r, d', o, paid) := webhook_core body d now in
    let tasks := if paid then match o with Some b => [b] | None => [] end else [] in
    (r, d', tasks).

(** Running the scheduled tasks later: [send] is the outcome of the SMS
    gateway call, logged and otherwise dropped. *)
Definition run_sms_tasks (env : SmsEnv) (send : string -> string -> bool)
  (tasks : list Booking) : list (string * string * bool) :=
  flat_map (fun b => match sendPaidConfirmationSms env b with
                     | Some (to, msg) => [(to, msg, send to msg)]
                     | None => []
                     end) tasks.

(** ** Operations that change a booking's status *)

Definition status_of (d : DB) (i : Z) : option Status :=
  match find (fun r => id r =? i) (bookings d) with
  | Some r => Some (status r)
  | None => None
  end.

(** The admin Bookings screen's own copy of the table: each booking's id
    and the status it shows. [loadBookings] fills it when the screen
    mounts and on "Refresh"; the buttons are rendered from it. *)
Definition Screen : Type := list (Z * Status).

Definition loadBookings (d : DB) : Screen :=
  map (fun r => (id r, status r)) (bookings d).

Definition shown (sc : Screen) (i : Z) : option Status :=
  match find (fun e => fst e =? i) sc with
  | Some e => Some (snd e)
  | None => None
  end.

(** A click on the button for status [s] of the row of booking [i]: the
    button exists when the status the screen shows offers [s]; the click
    runs [updateBookingStatus] (by id only) and, when it succeeds,
    [setBookings(prev => prev.map(...))] puts [s] into the screen's copy.
    [None]: the screen renders no such button. *)
Definition admin_click (sc : Screen) (d : DB) (i : Z) (s : Status) (now : Z)
  : option (Screen * DB) :=
  match shown sc i with
  | Some cur =>
      if existsb (status_eqb s) (admin_actions cur) then
        match updateBookingStatus d i s now with
        | Ok (d', _) => Some (map (fun e => if fst e =? i then (fst e, s) else e) sc, d')
        | Err _ => Some (sc, d)
        end
      else None
  | None => None
  end.

(** A booking row without its [updated_at] column. *)
Definition strip_updated_at (b : Booking) : Booking :=
  mkBooking (id b) (full_name b) (passenger_class b) (email b) (phone b)
    (emergency_name b) (emergency_phone b) (pickup_point_id b)
    (destination_id b) (bus_id b) (seat_number b) (referral_id b) (amount b)
    (status b) (payment_reference b) (receipt_url b) (created_at b) 0.

(** ** Sample data *)

Definition busA : Z := 7.
Definition seat5 : Z := 5.

(** Reference data of the seed migration: one bus, two pickup points, two
    destinations; no bookings yet. *)
Definition db0 : DB :=
  mkDB [busA] [1; 2] [3; 4] [] [mkSeat busA 1 true; mkSeat busA 5 true] [].

Definition form_for (seat : Z) : FormValues :=
  mkFormValues "Ama Mensah" "100" "ama@example.com" "0241234567" "Kofi"
    "0201234567" 1 3 None busA seat.

(** A paid booking on seat 1 of [busA]. *)
Definition paid_booking_seat1 : Booking :=
  mkBooking 100 "Ama Mensah" "100" "ama@example.com" "0241234567" "Kofi"
    "0201234567" 1 3 busA 1 None 8000 Paid (Some (JStr "TX1")) None 0 1.

(** Seats 1 and 2 active, seat 3 inactive (stored out of order), and the
    paid booking on seat 1. *)
Definition db_view : DB :=
  mkDB [busA] [1; 2] [3; 4] []
    [mkSeat busA 2 true; mkSeat busA 3 false; mkSeat busA 1 true]
    [paid_booking_seat1].



(** The text form of booking id 100 (0x64), as Hubtel echoes it back in
    [clientReference]. *)
Definition ref100 : string := "00000000-0000-0000-0000-000000000064".

Definition booking100 (st : Status) : Booking :=
  mkBooking 100 "Ama Mensah" "100" "ama@example.com" "0241234567" "Kofi"
    "0201234567" 1 3 busA seat5 None 8000 st None None 0 0.

(** Seat 5 re-booked (booking 101, pending) after booking 100 on it was
    cancelled. *)
Definition db_rebooked : DB :=
  mkDB [busA] [1; 2] [3; 4] [] [mkSeat busA seat5 true]
    [booking100 Cancelled;
     mkBooking 101 "Yaw Boateng" "200" "yaw@example.com" "0271234567" "Esi"
       "0501234567" 2 3 busA seat5 None 8000 Pending None None 1 1].

(** Booking 100 in status [st], alone on the bus. *)
Definition db_single (st : Status) : DB :=
  mkDB [busA] [1; 2] [3; 4] [] [mkSeat busA seat5 true] [booking100 st].

(** A Hubtel callback reporting booking 100 as paid. *)
Definition paid_payload : payload :=
  [("clientReference", JStr ref100); ("status", JStr "Paid");
   ("transactionId", JStr "TX9"); ("receiptUrl", JStr "https://r.example/1")]%string.

Definition sms_env0 : SmsEnv :=
  mkSmsEnv (fun _ => "Main Campus"%string) (fun _ => "Kumasi"%string) (fun _ => "ATT-01"%string).

(** ** [uuid_out] byte by byte *)

(** The characters [uuid_text] prints for byte [j] of the value: its two
    hex digits, then a hyphen after bytes 3, 5, 7 and 9. *)
Definition byte_chars (v : Z) (j : nat) : list ascii :=
  [hex_char ((v / 16 ^ (31 - Z.of_nat (2 * j))) mod 16);
   hex_char ((v / 16 ^ (31 - Z.of_nat (2 * j + 1))) mod 16)] ++
  (if existsb (Nat.eqb (2 * j + 1)) [7; 11; 15; 19]%nat then ["-"%char] else []).

(** ** Checkout creation (first half of hubtel-create-payment/index.ts) *)

(** [btoa] on a string of code units below 256. *)
Definition b64_char (n : Z) : ascii :=
  if n <? 26 then ascii_of_nat (65 + Z.to_nat n)
  else if n <? 52 then ascii_of_nat (97 + Z.to_nat (n - 26))
  else if n <? 62 then ascii_of_nat (48 + Z.to_nat (n - 52))
  else if n =? 62 then "+"%char else "/"%char.

Definition code (c : ascii) : Z := Z.of_nat (nat_of_ascii c).

Fixpoint btoa_list (cs : list ascii) : list ascii :=
  match cs with
  | a :: b :: c :: r =>
      let n := code a * 65536 + code b * 256 + code c in
      b64_char (n / 262144) :: b64_char ((n / 4096) mod 64) ::
      b64_char ((n / 64) mod 64) :: b64_char (n mod 64) :: btoa_list r
  | [a; b] =>
      let n := code a * 65536 + code b * 256 in
      [b64_char (n / 262144); b64_char ((n / 4096) mod 64);
       b64_char ((n / 64) mod 64); "="%char]
  | [a] =>
      let n := code a * 65536 in
      [b64_char (n / 262144); b64_char ((n / 4096) mod 64); "="%char; "="%char]
  | [] => []
  end.

Definition btoa (s : string) : string :=
  string_of_list_ascii (btoa_list (list_ascii_of_string s)).

(** [Deno.env.get(...) ?? ""] for the three Hubtel variables. *)
Record HubtelCreds : Type := mkHubtelCreds {
  HUBTEL_CLIENT_ID : string;
  HUBTEL_CLIENT_SECRET : string;
  HUBTEL_MERCHANT_NUMBER : string
}.

(** JavaScript's [ToNumber] on the JSON values of the model ([None] is
    NaN); on strings it is the argument [str_num]. *)
Definition to_number (str_num : string -> option Z) (v : jsval) : option Z :=
  match v with
  | None => None
  | Some JNull => Some 0
  | Some (JBool b) => Some (if b then 1 else 0)
  | Some (JNum z) => Some z
  | Some (JStr s) => str_num s
  end.

(** The body of the POST to [items/initiate]; an [undefined] member is
    [None] (JSON.stringify drops it). *)
Record CheckoutRequest : Type := mkCheckoutRequest {
  cr_authorization : string;
  totalAmount : json;
  description : string;
  callbackUrl : string;
  returnUrl : string;
  cancellationUrl : string;
  clientReference : jsval;
  merchantAccountNumber : string;
  customerName : jsval;
  customerEmail : jsval;
  customerMsisdn : jsval
}.

(** What the handler reads from Hubtel's answer: [res.ok], and
    [data?.responseCode], [data?.ResponseCode], [data?.data?.checkoutUrl],
    [data?.Data?.CheckoutUrl] of the parsed body ([{}] when it is not
    JSON). *)
Record HubtelReply : Type := mkHubtelReply {
  hr_ok : bool;
  hr_responseCode : jsval;
  hr_ResponseCode : jsval;
  hr_data_checkoutUrl : jsval;
  hr_Data_CheckoutUrl : jsval
}.

Inductive InitFault : Type :=
| InitMissingCredentials
| InitFailed
| InitException.

Inductive InitResponse : Type :=
| InitPreflight
| InitBadRequest
| InitError (e : InitFault)
| InitUrl (u : json).

Definition init_code (r : InitResponse) : Z :=
  match r with
  | InitPreflight | InitUrl _ => 200
  | InitBadRequest => 400
  | InitError _ => 500
  end.

Definition hubtel_callback_url : string :=
  "https://llrumtjljzzhvqfxowpb.functions.supabase.co/hubtel-webhook".

(** What [const { bookingId, amount, ... } = await req.json()] reads from:
    the object; [{}]-like for another JSON value; [None] when it throws
    ([null], or a body that is not JSON). *)
Definition init_fields (b : ParsedBody) : option payload :=
  match b with
  | PObject p => Some p
  | PPrimitive => Some []
  | PNull | PInvalid => None
  end.

(** [Deno.serve] of the checkout creation: the response and the requests
    sent to Hubtel. [origin] is the request's [origin] header; [fetch]
    answers a request, [None] when it throws. The body is read with
    [await req.json()] outside any local [try], so a body that is not
    JSON ends in the outer [catch]; destructuring [null] throws too. *)
Definition create_payment (is_options : bool) (body : ParsedBody)
  (creds : HubtelCreds) (origin : option string)
  (str_num : string -> option Z) (fetch : CheckoutRequest -> option HubtelReply)
  : InitResponse * list CheckoutRequest :=
  if is_options then (InitPreflight, []) else
  match init_fields body with
  | None => (InitError InitException, [])
  | Some p =>
    let bookingId := get p "bookingId" in
    let amount := get p "amount" in
    let amount_le0 := match to_number str_num amount with
                      | Some z => z <=? 0
                      | None => false
                      end in
    if negb (truthy bookingId) || negb (truthy amount) || amount_le0
    then (InitBadRequest, [])
    else if String.eqb (HUBTEL_CLIENT_ID creds) EmptyString ||
            String.eqb (HUBTEL_CLIENT_SECRET creds) EmptyString ||
            String.eqb (HUBTEL_MERCHANT_NUMBER creds) EmptyString
    then (InitError InitMissingCredentials, [])
    else
      let o := match origin with
               | Some s => if String.eqb s EmptyString
                           then "https://att-transport.local"%string else s
               | None => "https://att-transport.local"%string
               end in
      let auth := ("Basic " ++ btoa (HUBTEL_CLIENT_ID creds ++ ":" ++
                                     HUBTEL_CLIENT_SECRET creds))%string in
      let req := mkCheckoutRequest auth
        (match to_number str_num amount with Some z => JNum z | None => JNull end)
        "ATT Transport Ticket" hubtel_callback_url (o ++ "/") (o ++ "/")
        bookingId (HUBTEL_MERCHANT_NUMBER creds)
        (get p "fullName") (get p "email") (get p "phone") in
      match fetch req with
      | None => (InitError InitException, [req])
      | Some rep =>
          let responseCode := js_or (hr_responseCode rep) (hr_ResponseCode rep) in
          let checkoutUrl := js_or (hr_data_checkoutUrl rep) (hr_Data_CheckoutUrl rep) in
          let code_ok := match responseCode with
                         | Some (JStr c) => String.eqb c "0000"
                         | _ => false
                         end in
          if negb (hr_ok rep) || negb code_ok || negb (truthy checkoutUrl)
          then (InitError InitFailed, [req])
          else match checkoutUrl with
               | Some u => (InitUrl u, [req])
               | None => (InitError InitFailed, [req])
               end
      end
  end.

(** ** Loading the edge functions' modules *)

(** The names a module declares at its top level, in source order
    (interfaces and type aliases are erased). hubtel-create-payment:
    [const corsHeaders] (line 4), [import { createClient }] (line 104),
    [const corsHeaders] again (line 106), then the functions of lines 113,
    126 and 152. *)
Definition create_payment_toplevel : list string :=
  ["corsHeaders"; "createClient"; "corsHeaders"; "normalizeGhanaMsisdn";
   "sendSmsViaHubtel"; "sendPaidConfirmationSms"]%string.

(** hubtel-webhook: [import { createClient }] (line 4), [const corsHeaders]
    (line 6). *)
Definition hubtel_webhook_toplevel : list string :=
  ["createClient"; "corsHeaders"]%string.

Fixpoint has_dup (l : list string) : bool :=
  match l with
  | [] => false
  | x :: r => existsb (String.eqb x) r || has_dup r
  end.

(** What a request to an edge function gets. A module whose top level
    declares a name twice is an early SyntaxError: Deno rejects it when it
    loads it, before any statement runs, so none of its [Deno.serve]
    handlers is ever installed and the request fails at boot. *)
Inductive Served (A : Type) : Type :=
| BootError
| Handled (a : A).
Arguments BootError {A}.
Arguments Handled {A} a.

Definition edge_serve {A : Type} (toplevel : list string) (handler : unit -> A) : Served A :=
  if has_dup toplevel then BootError else Handled (handler tt).

(** hubtel-create-payment/index.ts registers two handlers: the checkout
    creation (first [Deno.serve]) and the SMS-sending webhook copy (second
    [Deno.serve]); a request for either goes through the module's load. *)
Definition checkout_endpoint (is_options : bool) (body : ParsedBody)
  (creds : HubtelCreds) (origin : option string)
  (str_num : string -> option Z) (fetch : CheckoutRequest -> option HubtelReply)
  : Served (InitResponse * list CheckoutRequest) :=
  edge_serve create_payment_toplevel
    (fun _ => create_payment is_options body creds origin str_num fetch).

Definition sms_webhook_endpoint (is_options : bool) (body : ParsedBody) (d : DB) (now : Z)
  : Served (Response * DB * list Booking) :=
  edge_serve create_payment_toplevel (fun _ => hubtel_webhook_sms is_options body d now).

(** hubtel-webhook/index.ts, the [callbackUrl] the checkout registers. *)
Definition callback_endpoint (is_options : bool) (body : ParsedBody) (d : DB) (now : Z)
  : Served (Response * DB) :=
  edge_serve hubtel_webhook_toplevel (fun _ => hubtel_webhook is_options body d now).

(** The columns of a booking row that no update in the repository
    writes: all but [status], [payment_reference], [receipt_url] and
    [updated_at]. *)
Definition booking_key_columns (r : Booking) :=
  (id r, full_name r, passenger_class r, email r, phone r, emergency_name r,
   emergency_phone r, pickup_point_id r, destination_id r, bus_id r,
   seat_number r, referral_id r, amount r, created_at r).

(** ** The seat map ([SeatMap], src/unnamed/part_001) *)

(** [for (let i = 0; i < sorted.length; i += 4) rows.push(sorted.slice(i, i + 4))] *)
Fixpoint rows_of_four (l : list SeatStatus) : list (list SeatStatus) :=
  match l with
  | a :: b :: c :: d :: rest => [a; b; c; d] :: rows_of_four rest
  | [] => []
  | _ => [l]
  end.

(** [layout]: the seats sorted by [a.seat_number - b.seat_number] (a
    stable sort, as [order_by_seat] is), cut into rows of four. *)
Definition seat_layout (seats : list SeatStatus) : list (list SeatStatus) :=
  rows_of_four (order_by_seat seats).

(** The buttons of one row: [row.slice(0, 2)], the aisle, [row.slice(2, 4)]. *)
Definition rendered_row (row : list SeatStatus) : list SeatStatus :=
  firstn 2 row ++ firstn 2 (skipn 2 row).

(** All buttons of the map, front to back. *)
Definition rendered_seats (seats : list SeatStatus) : list SeatStatus :=
  flat_map rendered_row (seat_layout seats).

(** The seats the seed migration creates for a bus of [n] seats:
    [SELECT b.id, generate_series(1, bt.seat_count), true]
    (src/unnamed/part_005). *)
Definition seed_seats (bus : Z) (n : nat) : list Seat :=
  map (fun k => mkSeat bus (Z.of_nat k) true) (seq 1 n).

(** What [get_seat_status] returns for a bus whose seats are [1..n], all
    active and free. *)
Definition fresh_bus_view (n : nat) : list SeatStatus :=
  map (fun k => mkSeatStatus (Z.of_nat k) true Available) (seq 1 n).

(** A database right after the seed: bus [busA] with its 32 seats, no
    booking. *)
Definition db_seeded : DB :=
  mkDB [busA] [1; 2] [3; 4] [] (seed_seats busA 32) [].

(** ** The CSV export ([exportBookings], src/unnamed/part_003) *)

(** [String(b.amount)] for an amount of [c] hundredths: JavaScript prints
    the shortest decimal, without trailing zeros. *)
Definition js_hundredths_text (c : Z) : string :=
  let a := Z.abs c in
  let r := a mod 100 in
  ((if (c <? 0)%Z then "-" else EmptyString) ++ z_to_dec (a / 100)%Z ++
   (if (r =? 0)%Z then EmptyString
    else if (r mod 10 =? 0)%Z then "." ++ z_to_dec (r / 10)%Z
    else "." ++ (if (r <? 10)%Z then "0" else EmptyString) ++ z_to_dec r))%string.

(** The text of the [booking_status] enum value. *)
Definition status_text (s : Status) : string :=
  match s with
  | Pending => "pending"
  | Paid => "paid"
  | Cancelled => "cancelled"
  end.

(** The header row of the export. *)
Definition csv_header : list string :=
  ["ID"; "Name"; "Email"; "Phone"; "Class"; "Pickup"; "Destination"; "Bus";
   "Seat"; "Amount"; "Status"; "Date"]%string.

(** The twelve cells of one booking's row; [env] gives the joined names
    (the empty string when the join finds no row) and [date] stands for
    [new Date(..).toLocaleDateString()]. *)
Definition csv_fields (env : SmsEnv) (date : Z -> string) (b : Booking) : list string :=
  [uuid_text (id b); full_name b; email b; phone b; passenger_class b;
   pickup_name env (pickup_point_id b); destination_name env (destination_id b);
   bus_name env (bus_id b); z_to_dec (seat_number b); js_hundredths_text (amount b);
   status_text (status b); date (created_at b)].

Definition newline : string := String (ascii_of_nat 10) EmptyString.

(** [exportBookings]: the rows joined with commas, the lines with a line
    break. *)
Definition exportBookings (env : SmsEnv) (date : Z -> string) (rows : list Booking) : string :=
  String.concat newline
    (String.concat "," csv_header ::
     map (fun b => String.concat "," (csv_fields env date b)) rows).

(** A reader that cuts a text at every [sep]. *)
Fixpoint split_on (sep : ascii) (cs : list ascii) : list (list ascii) :=
  match cs with
  | [] => [[]]
  | c :: r =>
      if Ascii.eqb c sep then [] :: split_on sep r
      else match split_on sep r with
           | w :: ws => (c :: w) :: ws
           | [] => [[c]]
           end
  end.

(** Joining lists of characters with [sep]. *)
Fixpoint join_on (sep : ascii) (ws : list (list ascii)) : list ascii :=
  match ws with
  | [] => []
  | [w] => w
  | w :: ws' => w ++ sep :: join_on sep ws'
  end.

(** The cells of a row that hold free text rather than a number, a UUID or
    a status. *)
Definition csv_text_fields (env : SmsEnv) (date : Z -> string) (b : Booking) : list string :=
  [full_name b; email b; phone b; passenger_class b;
   pickup_name env (pickup_point_id b); destination_name env (destination_id b);
   bus_name env (bus_id b); date (created_at b)].

Definition comma : ascii := ","%char.
Definition newline_char : ascii := ascii_of_nat 10.

(** A text field the export can carry: no comma and no line break. *)
Definition csv_safe (f : string) : bool :=
  negb (existsb (fun c => Ascii.eqb c comma || Ascii.eqb c newline_char)
                (list_ascii_of_string f)).

(** A date printer for the examples. *)
Definition date0 (t : Z) : string := "1/5/2025"%string.

(** Characters that are neither a comma nor a line break. *)
Definition plain_char (c : ascii) : Prop := c <> comma /\ c <> newline_char.

(** ** The admin search ([filterBookings], src/unnamed/part_003) *)

(** [String.prototype.toLowerCase] on one Latin-1 character: [A-Z] and
    [À-Þ] but [×] move up by 32. *)
Definition latin1_lower (c : ascii) : ascii :=
  let n := nat_of_ascii c in
  if (((65 <=? n) && (n <=? 90)) || ((192 <=? n) && (n <=? 222) && negb (n =? 215)))%nat
  then ascii_of_nat (n + 32) else c.

Definition to_lower (s : string) : string :=
  string_of_list_ascii (map latin1_lower (list_ascii_of_string s)).

(** [s.includes(pat)]: [pat] occurs in [s] at some position. *)
Fixpoint includes (s pat : string) : bool :=
  prefix pat s || match s with EmptyString => false | String _ r => includes r pat end.

(** [filterBookings] (src/unnamed/part_003). *)
Definition filterBookings (bookings : list Booking) (searchTerm statusFilter : string)
  : list Booking :=
  let filtered :=
    if String.eqb searchTerm EmptyString then bookings
    else filter (fun b =>
           includes (to_lower (full_name b)) (to_lower searchTerm) ||
           includes (to_lower (email b)) (to_lower searchTerm) ||
           includes (phone b) searchTerm ||
           includes (to_lower (uuid_text (id b))) (to_lower searchTerm)) bookings in
  if String.eqb statusFilter "all" then filtered
  else filter (fun b => String.eqb (status_text (status b)) statusFilter) filtered.

(** ** Lemmas about the ledger *)

Lemma count_active_app (b n : Z) (l1 l2 : list Booking) :
  count_active b n (l1 ++ l2) = (count_active b n l1 + count_active b n l2)%nat.
Proof. unfold count_active. rewrite filter_app, length_app. reflexivity. Qed.

Lemma count_active_cons (b n : Z) (x : Booking) (l : list Booking) :
  count_active b n (x :: l) =
  ((if holds b n x then 1 else 0) + count_active b n l)%nat.
Proof. unfold count_active. simpl. destruct (holds b n x); reflexivity. Qed.

Lemma count_active_zero (b n : Z) (t : list Booking) :
  (forall x, In x t -> holds b n x = false) -> count_active b n t = 0%nat.
Proof.
  induction t as [|x t IH]; intros H; [reflexivity|].
  rewrite count_active_cons, (H x (or_introl eq_refl)), IH; [reflexivity|].
  intros y Hy. apply H. right. exact Hy.
Qed.

Lemma count_active_pos (b n : Z) (t : list Booking) :
  (0 < count_active b n t)%nat -> exists x, In x t /\ holds b n x = true.
Proof.
  induction t as [|x t IH]; [intros H; unfold count_active in H; simpl in H; lia|].
  rewrite count_active_cons. destruct (holds b n x) eqn:Hx.
  - intros _. exists x. split; [left; reflexivity | exact Hx].
  - simpl. intros H. destruct (IH H) as [y [Hy1 Hy2]].
    exists y. split; [right; exact Hy1 | exact Hy2].
Qed.

Lemma count_active_filter_le (b n : Z) (f : Booking -> bool) (t : list Booking) :
  (count_active b n (filter f t) <= count_active b n t)%nat.
Proof.
  induction t as [|x t IH]; [simpl; lia|].
  simpl. destruct (f x); rewrite !count_active_cons; [|]; destruct (holds b n x); lia.
Qed.

Lemma holds_key (b n : Z) (r : Booking) :
  holds b n r = true -> bus_id r = b /\ seat_number r = n /\ in_active_index r = true.
Proof.
  unfold holds. intros H. apply andb_prop in H as [H H3]. apply andb_prop in H as [H1 H2].
  apply Z.eqb_eq in H1. apply Z.eqb_eq in H2. auto.
Qed.

(** A row that passed the index check shares its key with no other
    active row. *)
Lemma no_conflict_holds (t : list Booking) (r : Booking) :
  index_conflict t r = false -> in_active_index r = true ->
  forall x, In x t -> id x <> id r -> holds (bus_id r) (seat_number r) x = false.
Proof.
  unfold index_conflict. intros Hc Ha x Hx Hid. rewrite Ha in Hc. simpl in Hc.
  destruct (holds (bus_id r) (seat_number r) x) eqn:Hh; [|reflexivity].
  exfalso. assert (Hex : existsb (fun r' => negb (id r' =? id r) && (bus_id r' =? bus_id r) &&
                     (seat_number r' =? seat_number r) && in_active_index r') t = true).
  { apply existsb_exists. exists x. split; [exact Hx|].
    destruct (holds_key _ _ _ Hh) as [-> [-> ->]].
    rewrite !Z.eqb_refl. destruct (id x =? id r) eqn:E; [apply Z.eqb_eq in E; contradiction|].
    reflexivity. }
  congruence.
Qed.

Lemma existsb_id_false (t : list Booking) (i : Z) :
  existsb (fun r' => id r' =? i) t = false -> ~ In i (map id t).
Proof.
  intros H Hin. apply in_map_iff in Hin as [x [Hx Hin]].
  assert (existsb (fun r' => id r' =? i) t = true) by
    (apply existsb_exists; exists x; split; [exact Hin | apply Z.eqb_eq; exact Hx]).
  congruence.
Qed.

Lemma insert_booking_ok (d d' : DB) (r : Booking) :
  insert_booking d r = Ok d' ->
  bookings d' = bookings d ++ [r] /\
  ~ In (id r) (map id (bookings d)) /\ index_conflict (bookings d) r = false.
Proof.
  unfold insert_booking.
  destruct (existsb (fun r' => id r' =? id r) (bookings d)) eqn:Hpk; [discriminate|].
  destruct (negb (fk_ok d r)); [discriminate|].
  destruct (index_conflict (bookings d) r) eqn:Hc; [discriminate|].
  intros H. injection H as <-. simpl.
  split; [reflexivity|]. split; [apply existsb_id_false; exact Hpk | reflexivity].
Qed.

Lemma insert_preserves (t : list Booking) (r : Booking) :
  ledger_ok t -> ~ In (id r) (map id t) -> index_conflict t r = false ->
  ledger_ok (t ++ [r]).
Proof.
  intros [Hnd Hc] Hfresh Hic. split.
  - rewrite map_app. simpl. apply NoDup_app; [exact Hnd | constructor; [simpl; tauto | constructor] |].
    intros x Hx [Hy|[]]. subst. contradiction.
  - intros b n. rewrite count_active_app, count_active_cons. change (count_active b n []) with 0%nat.
    destruct (holds b n r) eqn:Hh; [|specialize (Hc b n); lia].
    destruct (holds_key _ _ _ Hh) as [<- [<- Ha]].
    rewrite (count_active_zero _ _ t); [lia|].
    intros x Hx. apply (no_conflict_holds t r Hic Ha x Hx).
    intros He. apply Hfresh. rewrite <- He. apply in_map. exact Hx.
Qed.

Lemma replace_row_absent (i : Z) (r' : Booking) (t : list Booking) :
  ~ In i (map id t) -> replace_row i r' t = t.
Proof.
  induction t as [|x t IH]; intros H; [reflexivity|].
  simpl in *. destruct (id x =? i) eqn:E.
  - apply Z.eqb_eq in E. exfalso. apply H. left. exact E.
  - f_equal. apply IH. tauto.
Qed.

Lemma filter_id_absent (i : Z) (t : list Booking) :
  ~ In i (map id t) -> filter (fun x => negb (id x =? i)) t = t.
Proof.
  induction t as [|x t IH]; intros H; [reflexivity|].
  simpl in *. destruct (id x =? i) eqn:E.
  - apply Z.eqb_eq in E. exfalso. apply H. left. exact E.
  - simpl. f_equal. apply IH. tauto.
Qed.

Lemma map_id_replace_row (i : Z) (r' : Booking) (t : list Booking) :
  id r' = i -> map id (replace_row i r' t) = map id t.
Proof.
  intros Hi. induction t as [|x t IH]; [reflexivity|].
  simpl. destruct (id x =? i) eqn:E; simpl; rewrite IH; [|reflexivity].
  apply Z.eqb_eq in E. rewrite Hi, E. reflexivity.
Qed.

(** Replacing the one row with id [i]: the other rows stay, the new row
    counts instead of the old one. *)
Lemma count_active_replace (b n i : Z) (r' : Booking) (t : list Booking) :
  NoDup (map id t) -> In i (map id t) ->
  count_active b n (replace_row i r' t) =
  (count_active b n (filter (fun x => negb (id x =? i)%Z) t) +
   (if holds b n r' then 1 else 0))%nat.
Proof.
  induction t as [|x t IH]; intros Hnd Hin; [contradiction|].
  simpl in Hnd, Hin. inversion Hnd as [|? ? Hx Hnd']; subst.
  simpl. destruct (id x =? i) eqn:E.
  - apply Z.eqb_eq in E. subst i. simpl.
    rewrite replace_row_absent, filter_id_absent by exact Hx.
    rewrite count_active_cons. lia.
  - simpl. rewrite !count_active_cons.
    assert (Hin' : In i (map id t)).
    { destruct Hin as [Hin|Hin]; [|exact Hin]. subst. rewrite Z.eqb_refl in E. discriminate. }
    rewrite (IH Hnd' Hin'). lia.
Qed.

Lemma update_booking_ok (d d' : DB) (i : Z) (p : Patch) (now : Z) (o : option Booking) :
  update_booking d i p now = Ok (d', o) ->
  (o = None /\ d' = d) \/
  (exists r, In r (bookings d) /\ id r = i /\ o = Some (apply_patch now p r) /\
     index_conflict (bookings d) (apply_patch now p r) = false /\
     bookings d' = replace_row i (apply_patch now p r) (bookings d)).
Proof.
  unfold update_booking.
  destruct (find (fun r => id r =? i) (bookings d)) as [r|] eqn:Hf.
  - destruct (index_conflict (bookings d) (apply_patch now p r)) eqn:Hc; [discriminate|].
    intros H. injection H as <- <-. right.
    apply find_some in Hf as [Hin Hid]. apply Z.eqb_eq in Hid.
    exists r. repeat split; auto.
  - intros H. injection H as <- <-. left. split; reflexivity.
Qed.

Lemma update_preserves (t : list Booking) (i : Z) (r r' : Booking) :
  ledger_ok t -> In r t -> id r = i -> id r' = i -> index_conflict t r' = false ->
  ledger_ok (replace_row i r' t).
Proof.
  intros [Hnd Hc] Hin Hid Hid' Hic.
  assert (Hi : In i (map id t)) by (rewrite <- Hid; apply in_map; exact Hin).
  split.
  - rewrite map_id_replace_row by exact Hid'. exact Hnd.
  - intros b n. rewrite count_active_replace by assumption.
    destruct (holds b n r') eqn:Hh.
    + destruct (holds_key _ _ _ Hh) as [<- [<- Ha]].
      rewrite count_active_zero; [lia|].
      intros x Hx. apply filter_In in Hx as [Hx Hne].
      apply (no_conflict_holds t r' Hic Ha x Hx).
      rewrite Hid'. intros E. rewrite E, Z.eqb_refl in Hne. discriminate.
    + pose proof (count_active_filter_le b n (fun x => negb (id x =? i)) t).
      specialize (Hc b n). lia.
Qed.

Lemma step_preserves (d d' : DB) :
  ledger_ok (bookings d) -> step d d' -> ledger_ok (bookings d').
Proof.
  intros Hok Hs. destruct Hs as [d r d' H | d i p now d' o H | d d' H].
  - destruct (insert_booking_ok _ _ _ H) as [-> [Hf Hc]].
    apply insert_preserves; assumption.
  - destruct (update_booking_ok _ _ _ _ _ _ H) as [[_ ->] | [r [Hin [Hid [_ [Hc ->]]]]]];
      [exact Hok|].
    apply (update_preserves _ i r); auto.
  - rewrite H. exact Hok.
Qed.

Lemma reachable_ledger_ok (d : DB) : reachable d -> ledger_ok (bookings d).
Proof.
  induction 1 as [d H | d d' _ IH Hs].
  - rewrite H. split; [constructor | intros b n; cbv; lia].
  - exact (step_preserves d d' IH Hs).
Qed.

Lemma count_active_zero_inv (b n : Z) (t : list Booking) :
  count_active b n t = 0%nat -> forall x, In x t -> holds b n x = false.
Proof.
  intros H x Hx. destruct (holds b n x) eqn:Hh; [|reflexivity].
  assert (Hp : (0 < count_active b n t)%nat).
  { clear H. induction t as [|y t IH]; [contradiction|].
    rewrite count_active_cons. destruct Hx as [<-|Hx]; [rewrite Hh; lia|].
    specialize (IH Hx). lia. }
  lia.
Qed.

Lemma free_key_no_conflict (t : list Booking) (r : Booking) :
  count_active (bus_id r) (seat_number r) t = 0%nat -> index_conflict t r = false.
Proof.
  intros H. unfold index_conflict. destruct (in_active_index r) eqn:Ha; [|reflexivity].
  simpl. apply not_true_is_false. intros Hex. apply existsb_exists in Hex as [x [Hx Hc]].
  pose proof (count_active_zero_inv _ _ _ H x Hx) as Hh.
  apply andb_prop in Hc as [Hc H4]. apply andb_prop in Hc as [Hc H3].
  apply andb_prop in Hc as [_ H2].
  unfold holds in Hh. rewrite H2, H3, H4 in Hh. discriminate.
Qed.

Lemma conflict_found (t : list Booking) (r r1 : Booking) :
  In r1 t -> id r1 <> id r -> bus_id r1 = bus_id r -> seat_number r1 = seat_number r ->
  in_active_index r1 = true -> in_active_index r = true -> index_conflict t r = true.
Proof.
  intros Hin Hid Hb Hs Ha1 Ha. unfold index_conflict. rewrite Ha. simpl.
  apply existsb_exists. exists r1. split; [exact Hin|].
  rewrite Hb, Hs, Ha1, !Z.eqb_refl.
  destruct (id r1 =? id r) eqn:E; [apply Z.eqb_eq in E; contradiction | reflexivity].
Qed.

Lemma fresh_existsb (t : list Booking) (i : Z) :
  ~ In i (map id t) -> existsb (fun r' => id r' =? i) t = false.
Proof.
  intros H. apply not_true_is_false. intros Hex.
  apply existsb_exists in Hex as [x [Hx E]]. apply Z.eqb_eq in E.
  apply H. rewrite <- E. apply in_map. exact Hx.
Qed.

(** A signed-in caller's submission is the plain insert. *)
Lemma onSubmit_authenticated (d : DB) (v : FormValues) (amt fresh now : Z) :
  onSubmit Authenticated d v amt fresh now = insert_booking d (booking_of_form v amt fresh now).
Proof. reflexivity. Qed.

(** A submission without a session is refused by RLS, whatever it holds. *)
Lemma onSubmit_anon (d : DB) (v : FormValues) (amt fresh now : Z) :
  onSubmit Anon d v amt fresh now = Err RlsViolation.
Proof. reflexivity. Qed.

(** ** C1: at most one pending or paid booking per (bus, seat) *)

(** C1 (as stated, refuted). Two submissions of the booking form for
    the free seat 5 of [busA] from the public page, without a session (role
    [anon]): both are refused by RLS ([INSERT ... RETURNING] needs a SELECT
    policy admitting [anon], and there is none), so neither creates a
    booking and the seat stays free. *)
Lemma C1_counterexample :
  count_active busA seat5 (bookings db0) = 0%nat /\
  onSubmit Anon db0 (form_for seat5) 8000 100 0 = Err RlsViolation /\
  onSubmit Anon db0 (form_for seat5) 8000 101 0 = Err RlsViolation.
Proof. split; [|split]; vm_compute; reflexivity. Qed.

(** C1 (code as written). In every reachable state of the database the
    number of bookings with [(bus_id, seat_number) = (b, n)] and status
    pending or paid is at most 1; every insert and update goes through the
    partial unique index. Two booking attempts by signed-in callers for the
    same free (bus, seat) reach the index one after the other (PostgreSQL
    makes the second wait on the first): the first creates a pending
    booking, the second is rejected, by the index itself when its id is
    fresh and its foreign keys hold. An attempt without a session is
    refused by RLS whatever the seat, and creates nothing. *)
Theorem C1_active_booking_unique (d : DB) (Hr : reachable d) :
  (forall b n, (count_active b n (bookings d) <= 1)%nat) /\
  (forall v1 v2 a1 a2 i1 i2 t1 t2,
     fv_bus_id v2 = fv_bus_id v1 -> fv_seat_number v2 = fv_seat_number v1 ->
     count_active (fv_bus_id v1) (fv_seat_number v1) (bookings d) = 0%nat ->
     ~ In i1 (map id (bookings d)) ->
     fk_ok d (booking_of_form v1 a1 i1 t1) = true ->
     let r1 := booking_of_form v1 a1 i1 t1 in
     let d1 := with_bookings d (bookings d ++ [r1]) in
     onSubmit Authenticated d v1 a1 i1 t1 = Ok d1 /\ status r1 = Pending /\ reachable d1 /\
     (exists e, onSubmit Authenticated d1 v2 a2 i2 t2 = Err e) /\
     (i2 <> i1 -> ~ In i2 (map id (bookings d)) ->
      fk_ok d (booking_of_form v2 a2 i2 t2) = true ->
      onSubmit Authenticated d1 v2 a2 i2 t2 = Err UniqueViolation)) /\
  (forall v a i t, onSubmit Anon d v a i t = Err RlsViolation).
Proof.
  split; [|split; [|intros; apply onSubmit_anon]].
  - intros b n. exact (proj2 (reachable_ledger_ok d Hr) b n).
  - intros v1 v2 a1 a2 i1 i2 t1 t2 Hb Hs Hfree Hfresh Hfk r1 d1.
    rewrite !onSubmit_authenticated.
    assert (H1 : insert_booking d (booking_of_form v1 a1 i1 t1) = Ok d1).
    { unfold insert_booking.
      change (id (booking_of_form v1 a1 i1 t1)) with i1.
      rewrite (fresh_existsb _ _ Hfresh), Hfk. simpl.
      rewrite free_key_no_conflict by exact Hfree. reflexivity. }
    assert (Hc2 : forall a i t, i <> i1 ->
               index_conflict (bookings d1) (booking_of_form v2 a i t) = true).
    { intros a i t Hne. apply (conflict_found _ _ r1).
      - simpl. apply in_or_app. right. left. reflexivity.
      - simpl. congruence.
      - simpl. congruence.
      - simpl. congruence.
      - reflexivity.
      - reflexivity. }
    split; [exact H1|]. split; [reflexivity|].
    split; [apply (reach_step d d1 Hr); apply (step_insert d r1 d1); exact H1|].
    split.
    + unfold insert_booking.
      destruct (existsb _ (bookings d1)) eqn:Hpk; [eexists; reflexivity|].
      destruct (negb (fk_ok d1 _)); [eexists; reflexivity|].
      rewrite Hc2; [eexists; reflexivity|].
      intros E. subst i2.
      assert (existsb (fun r' => id r' =? i1) (bookings d1) = true).
      { apply existsb_exists. exists r1. split.
        - simpl. apply in_or_app. right. left. reflexivity.
        - apply Z.eqb_refl. }
      simpl in Hpk, H. congruence.
    + intros Hne Hfresh2 Hfk2. unfold insert_booking.
      rewrite fresh_existsb.
      * change (fk_ok d1 (booking_of_form v2 a2 i2 t2)) with (fk_ok d (booking_of_form v2 a2 i2 t2)).
        rewrite Hfk2. simpl. rewrite Hc2 by exact Hne. reflexivity.
      * simpl. rewrite map_app. simpl. intros Hin. apply in_app_or in Hin as [Hin|[Hin|[]]];
          [contradiction | congruence].
Qed.

Lemma C1_witness :
  reachable db0 /\
  (forall b n, (count_active b n (bookings db0) <= 1)%nat) /\
  (exists e, onSubmit Authenticated (with_bookings db0 (bookings db0 ++
                [booking_of_form (form_for seat5) 8000 100 0]))
               (form_for seat5) 8000 101 0 = Err e).
Proof.
  assert (Hr : reachable db0) by (apply reach_init; reflexivity).
  split; [exact Hr|]. split; [exact (proj1 (C1_active_booking_unique db0 Hr))|].
  refine (proj1 (proj2 (proj2 (proj2
    (proj1 (proj2 (C1_active_booking_unique db0 Hr)) (form_for seat5) (form_for seat5)
       8000 8000 100 101 0 0 eq_refl eq_refl _ _ _)))));
  [vm_compute; reflexivity | simpl; tauto | vm_compute; reflexivity].
Defined.

(** ** Lemmas about the availability view *)

Definition seat_lt (x y : SeatStatus) : Prop := ss_seat_number x < ss_seat_number y.

Lemma insert_by_seat_perm (x : SeatStatus) (l : list SeatStatus) :
  Permutation (insert_by_seat x l) (x :: l).
Proof.
  induction l as [|y l IH]; simpl; [reflexivity|].
  destruct (ss_seat_number x <=? ss_seat_number y); [reflexivity|].
  rewrite IH. apply perm_swap.
Qed.

Lemma order_by_seat_perm (l : list SeatStatus) : Permutation (order_by_seat l) l.
Proof.
  induction l as [|x l IH]; simpl; [reflexivity|].
  rewrite insert_by_seat_perm, IH. reflexivity.
Qed.

Lemma insert_by_seat_hd (y x : SeatStatus) (l : list SeatStatus) :
  HdRel seat_lt y l -> seat_lt y x -> HdRel seat_lt y (insert_by_seat x l).
Proof.
  intros H Hyx. destruct l as [|z l]; simpl; [constructor; exact Hyx|].
  destruct (ss_seat_number x <=? ss_seat_number z); constructor; [exact Hyx|].
  inversion H; assumption.
Qed.

Lemma insert_by_seat_sorted (x : SeatStatus) (l : list SeatStatus) :
  Sorted seat_lt l -> ~ In (ss_seat_number x) (map ss_seat_number l) ->
  Sorted seat_lt (insert_by_seat x l).
Proof.
  induction l as [|y l IH]; intros Hs Hn; simpl; [repeat constructor|].
  simpl in Hn. destruct (ss_seat_number x <=? ss_seat_number y) eqn:E.
  - apply Z.leb_le in E. constructor; [exact Hs|]. constructor.
    unfold seat_lt. lia.
  - apply Z.leb_gt in E. inversion Hs as [|? ? Hs' Hhd]; subst.
    constructor; [apply IH; [exact Hs' | tauto]|].
    apply insert_by_seat_hd; [exact Hhd|]. unfold seat_lt. lia.
Qed.

Lemma order_by_seat_sorted (l : list SeatStatus) :
  NoDup (map ss_seat_number l) -> StronglySorted seat_lt (order_by_seat l).
Proof.
  intros Hnd. apply Sorted_StronglySorted; [unfold Relations_1.Transitive, seat_lt; intros; lia|].
  induction l as [|x l IH]; simpl; [constructor|].
  inversion Hnd as [|? ? Hx Hnd']; subst.
  apply insert_by_seat_sorted; [exact (IH Hnd')|].
  rewrite (Permutation_map ss_seat_number (order_by_seat_perm l)). exact Hx.
Qed.

Lemma sorted_perm_eq (l1 l2 : list SeatStatus) :
  StronglySorted seat_lt l1 -> StronglySorted seat_lt l2 -> Permutation l1 l2 -> l1 = l2.
Proof.
  revert l2. induction l1 as [|a l1 IH]; intros l2 S1 S2 P.
  - symmetry. apply Permutation_nil. exact P.
  - destruct l2 as [|b l2]; [apply Permutation_sym, Permutation_nil in P; discriminate|].
    inversion S1 as [|? ? S1' F1]; inversion S2 as [|? ? S2' F2]; subst.
    assert (a = b).
    { destruct (Permutation_in a P (or_introl eq_refl)) as [E|Ha]; [congruence|].
      assert (Hb : In b (a :: l1)) by (apply (Permutation_in b (Permutation_sym P)); left; reflexivity).
      destruct Hb as [E|Hb]; [exact E|].
      pose proof (proj1 (Forall_forall _ _) F1 b Hb).
      pose proof (proj1 (Forall_forall _ _) F2 a Ha).
      unfold seat_lt in *. lia. }
    subst b. f_equal. apply IH; [exact S1' | exact S2' | exact (Permutation_cons_inv P)].
Qed.

Lemma seat_row_status_taken (d : DB) (s : Seat) :
  ss_status (seat_row_status d s) = Taken <->
  exists b, In b (bookings d) /\ bus_id b = seat_bus_id s /\
            seat_number b = seat_seat_number s /\ (status b = Pending \/ status b = Paid).
Proof.
  unfold seat_row_status. simpl.
  destruct (existsb _ (bookings d)) eqn:E; split; intros H; try discriminate; try reflexivity.
  - apply existsb_exists in E as [b [Hb Hc]]. exists b.
    apply andb_prop in Hc as [Hc Ha]. apply andb_prop in Hc as [H1 H2].
    apply Z.eqb_eq in H1. apply Z.eqb_eq in H2.
    repeat split; auto. unfold in_active_index in Ha. destruct (status b); auto; discriminate.
  - exfalso. destruct H as [b [Hb [H1 [H2 H3]]]].
    assert (existsb (fun b => (bus_id b =? seat_bus_id s) && (seat_number b =? seat_seat_number s) &&
                              in_active_index b) (bookings d) = true).
    { apply existsb_exists. exists b. split; [exact Hb|]. rewrite H1, H2, !Z.eqb_refl.
      unfold in_active_index. destruct H3 as [-> | ->]; reflexivity. }
    congruence.
Qed.

Lemma seat_row_status_eta (d : DB) (s : Seat) :
  seat_row_status d s =
  mkSeatStatus (seat_seat_number s) (seat_active s) (ss_status (seat_row_status d s)).
Proof. reflexivity. Qed.

Lemma seat_numbers_of_view (d : DB) (l : list Seat) :
  map ss_seat_number (map (seat_row_status d) l) = map seat_seat_number l.
Proof. rewrite map_map. reflexivity. Qed.

(** The query over the rows of [d]: one record per seat row of bus [B],
    sorted by seat number, each taken exactly when a pending or paid row
    of [d] holds it; and, for seats {1, 2 active; 3 inactive} with no
    pending or paid booking of the bus off seat 1, the three records in
    order. *)
Lemma seat_status_view_spec (d : DB) (B : Z)
  (Huniq : NoDup (map seat_seat_number (filter (fun s => seat_bus_id s =? B) (seats d)))) :
  Permutation (seat_status_view d B)
    (map (seat_row_status d) (filter (fun s => seat_bus_id s =? B) (seats d))) /\
  StronglySorted seat_lt (seat_status_view d B) /\
  (forall x, In x (seat_status_view d B) ->
     exists s, In s (seats d) /\ seat_bus_id s = B /\
       seat_seat_number s = ss_seat_number x /\ seat_active s = ss_is_active x /\
       (ss_status x = Taken <->
        exists b, In b (bookings d) /\ bus_id b = B /\ seat_number b = ss_seat_number x /\
                  (status b = Pending \/ status b = Paid))) /\
  (Permutation (filter (fun s => seat_bus_id s =? B) (seats d))
     [mkSeat B 1 true; mkSeat B 2 true; mkSeat B 3 false] ->
   (forall b, In b (bookings d) -> bus_id b = B -> in_active_index b = true ->
              seat_number b = 1) ->
   seat_status_view d B =
   [mkSeatStatus 1 true (ss_status (seat_row_status d (mkSeat B 1 true)));
    mkSeatStatus 2 true Available; mkSeatStatus 3 false Available]).
Proof.
  set (L := filter (fun s => seat_bus_id s =? B) (seats d)) in *.
  assert (HP : Permutation (seat_status_view d B) (map (seat_row_status d) L))
    by apply order_by_seat_perm.
  assert (HS : StronglySorted seat_lt (seat_status_view d B)).
  { apply order_by_seat_sorted. rewrite seat_numbers_of_view. exact Huniq. }
  split; [exact HP|]. split; [exact HS|]. split.
  - intros x Hx. apply (Permutation_in x HP) in Hx.
    apply in_map_iff in Hx as [s [<- Hs]].
    apply filter_In in Hs as [Hs HB]. apply Z.eqb_eq in HB.
    exists s. repeat split; auto.
    + intros H. apply seat_row_status_taken in H as [b [Hb [H1 [H2 H3]]]].
      exists b. rewrite <- HB. auto.
    + intros [b [Hb [H1 [H2 H3]]]]. apply seat_row_status_taken.
      exists b. rewrite HB. auto.
  - intros Hseats Honly.
    assert (Avail_free : forall n, n <> 1 ->
              ss_status (seat_row_status d (mkSeat B n true)) = Available /\
              ss_status (seat_row_status d (mkSeat B n false)) = Available).
    { intros n Hn. split;
      (destruct (ss_status (seat_row_status d _)) eqn:E; [reflexivity|];
       apply seat_row_status_taken in E as [b [Hb [H1 [H2 H3]]]]; simpl in H1, H2;
       exfalso; apply Hn; rewrite <- H2; apply (Honly b Hb H1);
       unfold in_active_index; destruct H3 as [-> | ->]; reflexivity). }
    assert (HT : Permutation (seat_status_view d B)
       [mkSeatStatus 1 true (ss_status (seat_row_status d (mkSeat B 1 true)));
        mkSeatStatus 2 true Available; mkSeatStatus 3 false Available]).
    { rewrite HP, (Permutation_map (seat_row_status d) Hseats). cbn [map].
      rewrite (seat_row_status_eta d (mkSeat B 2 true)),
              (seat_row_status_eta d (mkSeat B 3 false)).
      rewrite (proj1 (Avail_free 2 ltac:(lia))), (proj2 (Avail_free 3 ltac:(lia))).
      reflexivity. }
    apply sorted_perm_eq; [exact HS| |exact HT].
    repeat constructor; unfold seat_lt; simpl; lia.
Qed.

(** ** C2: the availability view *)

(** C2 (as stated, refuted). The spec's example queried by the public
    seat map, without a session: [get_seat_status] runs with the caller's
    rights, RLS hides every booking from [anon], and seat 1, which a paid
    booking holds, is reported available. *)
Lemma C2_counterexample :
  In paid_booking_seat1 (bookings db_view) /\ status paid_booking_seat1 = Paid /\
  bus_id paid_booking_seat1 = busA /\ seat_number paid_booking_seat1 = 1 /\
  get_seat_status Anon db_view busA =
  [mkSeatStatus 1 true Available; mkSeatStatus 2 true Available;
   mkSeatStatus 3 false Available].
Proof. split; [left; reflexivity|]. repeat split; vm_compute; reflexivity. Qed.

(** C2 (code as written). [get_seat_status role d B] has one record per
    seat row of bus [B] (a permutation of them), ordered by strictly
    ascending seat number (seat numbers are unique per bus, the
    [UNIQUE (bus_id, seat_number)] constraint), each carrying that seat's
    number and active flag, with status [Taken] exactly when the caller's
    role may read bookings and a pending or paid booking exists for
    [(B, seat)], whatever the active flag. With seats {1 active, 2 active,
    3 inactive} and one paid booking on seat 1 (the only pending or paid
    booking of the bus) the result is
    [[{1,true,taken}; {2,true,available}; {3,false,available}]] for a
    signed-in caller, and all three available for [anon]. *)
Theorem C2_get_seat_status (role : Role) (d : DB) (B : Z)
  (Huniq : NoDup (map seat_seat_number (filter (fun s => seat_bus_id s =? B) (seats d)))) :
  Permutation (get_seat_status role d B)
    (map (seat_row_status (with_bookings d (visible_bookings role d)))
       (filter (fun s => seat_bus_id s =? B) (seats d))) /\
  StronglySorted seat_lt (get_seat_status role d B) /\
  (forall x, In x (get_seat_status role d B) ->
     exists s, In s (seats d) /\ seat_bus_id s = B /\
       seat_seat_number s = ss_seat_number x /\ seat_active s = ss_is_active x /\
       (ss_status x = Taken <->
        can_read_bookings role = true /\
        exists b, In b (bookings d) /\ bus_id b = B /\ seat_number b = ss_seat_number x /\
                  (status b = Pending \/ status b = Paid))) /\
  (Permutation (filter (fun s => seat_bus_id s =? B) (seats d))
     [mkSeat B 1 true; mkSeat B 2 true; mkSeat B 3 false] ->
   (exists b, In b (bookings d) /\ bus_id b = B /\ seat_number b = 1 /\ status b = Paid) ->
   (forall b, In b (bookings d) -> bus_id b = B -> in_active_index b = true ->
              seat_number b = 1) ->
   get_seat_status role d B =
   [mkSeatStatus 1 true (if can_read_bookings role then Taken else Available);
    mkSeatStatus 2 true Available; mkSeatStatus 3 false Available]).
Proof.
  set (dr := with_bookings d (visible_bookings role d)).
  assert (Hseats : seats dr = seats d) by reflexivity.
  assert (Hbk : bookings dr = if can_read_bookings role then bookings d else [])
    by reflexivity.
  destruct (seat_status_view_spec dr B) as [HP [HS [Hx Hex]]]; [rewrite Hseats; exact Huniq|].
  unfold get_seat_status. fold dr. rewrite Hseats in HP, Hex.
  split; [exact HP|]. split; [exact HS|]. split.
  - intros x Hin. destruct (Hx x Hin) as [s [Hs [H1 [H2 [H3 H4]]]]].
    rewrite Hseats in Hs. exists s.
    split; [exact Hs|]. split; [exact H1|]. split; [exact H2|]. split; [exact H3|]. split.
    + intros Ht. apply H4 in Ht as [b [Hb Hb']]. rewrite Hbk in Hb.
      destruct (can_read_bookings role); [|destruct Hb]. split; [reflexivity|]. eauto.
    + intros [Hc [b [Hb Hb']]]. apply H4. exists b. rewrite Hbk, Hc. auto.
  - intros Hs3 [b1 [Hb1 [Hbus1 [Hseat1 Hpaid1]]]] Honly.
    rewrite Hex; [|exact Hs3|].
    + f_equal. f_equal.
      destruct (can_read_bookings role) eqn:Hc.
      * apply seat_row_status_taken. exists b1. rewrite Hbk. simpl. auto.
      * unfold seat_row_status. rewrite Hbk. reflexivity.
    + intros b Hb. rewrite Hbk in Hb.
      destruct (can_read_bookings role); [exact (Honly b Hb) | destruct Hb].
Qed.

Lemma C2_witness :
  NoDup (map seat_seat_number (filter (fun s => seat_bus_id s =? busA) (seats db_view))) /\
  get_seat_status Authenticated db_view busA =
  [mkSeatStatus 1 true Taken; mkSeatStatus 2 true Available;
   mkSeatStatus 3 false Available].
Proof.
  assert (Hnd : NoDup (map seat_seat_number
                  (filter (fun s => seat_bus_id s =? busA) (seats db_view)))).
  { simpl. repeat constructor; simpl; lia. }
  split; [exact Hnd|].
  apply (proj2 (proj2 (proj2 (C2_get_seat_status Authenticated db_view busA Hnd)))).
  - simpl. apply Permutation_sym.
    exact (Permutation_cons_append [mkSeat busA 2 true; mkSeat busA 3 false] (mkSeat busA 1 true)).
  - exists paid_booking_seat1. simpl. repeat split; auto.
  - intros b [<-|[]] _ _. reflexivity.
Defined.

(** ** C3: booking an inactive seat *)




(** ** C10: booking a seat number the bus does not have *)

(** C10. [bookings.seat_number] has no foreign key to [seats]: on a bus
    with no seat row numbered [n], a signed-in caller's booking for [n]
    with a fresh id, valid references and no pending or paid booking on
    [(bus, n)] is created pending, and [get_seat_status] for that bus,
    whoever calls it, never reports [n], before or after. *)
Theorem C10_seat_number_unchecked (d : DB) (v : FormValues) (amt fresh now : Z)
  (Hnoseat : forall s, In s (seats d) -> seat_bus_id s = fv_bus_id v ->
                       seat_seat_number s <> fv_seat_number v)
  (Hfree : count_active (fv_bus_id v) (fv_seat_number v) (bookings d) = 0%nat)
  (Hfresh : ~ In fresh (map id (bookings d)))
  (Hfk : fk_ok d (booking_of_form v amt fresh now) = true) :
  let d' := with_bookings d (bookings d ++ [booking_of_form v amt fresh now]) in
  onSubmit Authenticated d v amt fresh now = Ok d' /\
  status (booking_of_form v amt fresh now) = Pending /\
  (forall role x, In x (get_seat_status role d (fv_bus_id v)) ->
     ss_seat_number x <> fv_seat_number v) /\
  (forall role x, In x (get_seat_status role d' (fv_bus_id v)) ->
     ss_seat_number x <> fv_seat_number v).
Proof.
  intros d'.
  assert (Hview : forall e, seats e = seats d ->
            forall role x, In x (get_seat_status role e (fv_bus_id v)) ->
            ss_seat_number x <> fv_seat_number v).
  { intros e He role x Hx. unfold get_seat_status, seat_status_view in Hx.
    apply (Permutation_in x (order_by_seat_perm _)) in Hx.
    apply in_map_iff in Hx as [s [<- Hs]]. apply filter_In in Hs as [Hs Hb].
    apply Z.eqb_eq in Hb.
    change (seats (with_bookings e (visible_bookings role e))) with (seats e) in Hs.
    rewrite He in Hs. exact (Hnoseat s Hs Hb). }
  split; [|split; [reflexivity|split]].
  - rewrite onSubmit_authenticated. unfold insert_booking.
    change (id (booking_of_form v amt fresh now)) with fresh.
    rewrite (fresh_existsb _ _ Hfresh), Hfk. simpl.
    rewrite free_key_no_conflict by exact Hfree. reflexivity.
  - apply Hview. reflexivity.
  - apply Hview. reflexivity.
Qed.

Lemma C10_witness :
  onSubmit Authenticated db0 (form_for 9) 8000 100 0 =
    Ok (with_bookings db0 (bookings db0 ++ [booking_of_form (form_for 9) 8000 100 0])).
Proof.
  refine (proj1 (C10_seat_number_unchecked db0 (form_for 9) 8000 100 0 _ _ _ _)).
  - intros s [<-|[<-|[]]] _; simpl; lia.
  - vm_compute. reflexivity.
  - simpl. tauto.
  - vm_compute. reflexivity.
Defined.

(** ** Lemmas about updates by id *)

Lemma find_by_id_unique (t : list Booking) (r : Booking) (i : Z) :
  NoDup (map id t) -> In r t -> id r = i -> find (fun x => id x =? i) t = Some r.
Proof.
  induction t as [|x t IH]; intros Hnd Hin Hid; [contradiction|].
  simpl in Hnd. inversion Hnd as [|? ? Hx Hnd']; subst. simpl.
  destruct Hin as [<-|Hin].
  - rewrite Z.eqb_refl. reflexivity.
  - destruct (id x =? id r) eqn:E.
    + apply Z.eqb_eq in E. exfalso. apply Hx. rewrite E. apply in_map. exact Hin.
    + apply IH; auto.
Qed.

Lemma find_replace_same (t : list Booking) (i : Z) (r r' : Booking) :
  id r' = i -> find (fun x => id x =? i) t = Some r ->
  find (fun x => id x =? i) (replace_row i r' t) = Some r'.
Proof.
  intros Hid. induction t as [|x t IH]; simpl; [discriminate|].
  destruct (id x =? i) eqn:E.
  - intros _. simpl. rewrite Hid, Z.eqb_refl. reflexivity.
  - simpl. rewrite E. exact IH.
Qed.

Lemma find_replace_other (t : list Booking) (i j : Z) (r' : Booking) :
  id r' = i -> j <> i ->
  find (fun x => id x =? j) (replace_row i r' t) = find (fun x => id x =? j) t.
Proof.
  intros Hid Hne. induction t as [|x t IH]; simpl; [reflexivity|].
  destruct (id x =? i) eqn:E; simpl.
  - apply Z.eqb_eq in E. rewrite Hid.
    destruct (i =? j) eqn:E1; [apply Z.eqb_eq in E1; congruence|].
    destruct (id x =? j) eqn:E2; [apply Z.eqb_eq in E2; congruence|]. exact IH.
  - destruct (id x =? j); [reflexivity | exact IH].
Qed.

Lemma replace_row_twice (t : list Booking) (i : Z) (r' r'' : Booking) :
  id r' = i -> replace_row i r'' (replace_row i r' t) = replace_row i r'' t.
Proof.
  intros Hid. induction t as [|x t IH]; simpl; [reflexivity|].
  destruct (id x =? i) eqn:E; simpl.
  - rewrite Hid, Z.eqb_refl, IH. reflexivity.
  - rewrite E, IH. reflexivity.
Qed.

(** The index check of a row ignores the rows with its own id. *)
Lemma index_conflict_replace (t : list Booking) (i : Z) (r' r'' : Booking) :
  id r' = i -> id r'' = i ->
  index_conflict (replace_row i r' t) r'' = index_conflict t r''.
Proof.
  intros H1 H2. unfold index_conflict. rewrite H2. f_equal.
  induction t as [|x t IH]; simpl; [reflexivity|].
  destruct (id x =? i) eqn:E.
  - rewrite H1, Z.eqb_refl. simpl. exact IH.
  - rewrite IH, E. reflexivity.
Qed.

Lemma index_conflict_key (t : list Booking) (r1 r2 : Booking) :
  id r1 = id r2 -> bus_id r1 = bus_id r2 -> seat_number r1 = seat_number r2 ->
  in_active_index r1 = in_active_index r2 ->
  index_conflict t r1 = index_conflict t r2.
Proof. intros H1 H2 H3 H4. unfold index_conflict. rewrite H1, H2, H3, H4. reflexivity. Qed.

Lemma apply_patch_twice (t1 t2 : Z) (p : Patch) (r : Booking) :
  apply_patch t2 p (apply_patch t1 p r) = apply_patch t2 p r.
Proof.
  unfold apply_patch. simpl.
  destruct (p_status p), (p_payment_reference p), (p_receipt_url p); reflexivity.
Qed.

Lemma two_holds (f : Booking -> bool) (t : list Booking) (a b : Booking) :
  In a t -> In b t -> a <> b -> f a = true -> f b = true ->
  (2 <= List.length (filter f t))%nat.
Proof.
  induction t as [|x t IH]; intros Ha Hb Hne Fa Fb; [contradiction|].
  assert (Hone : forall y, In y t -> f y = true -> (1 <= List.length (filter f t))%nat).
  { clear. induction t as [|z t IH]; intros y Hy Fy; [contradiction|].
    simpl. destruct (f z) eqn:Fz; simpl; [lia|]. destruct Hy as [<-|Hy]; [congruence|].
    exact (IH y Hy Fy). }
  simpl. destruct Ha as [<-|Ha]; destruct Hb as [<-|Hb].
  - contradiction.
  - rewrite Fa. simpl. pose proof (Hone b Hb Fb). lia.
  - rewrite Fb. simpl. pose proof (Hone a Ha Fa). lia.
  - pose proof (IH Ha Hb Hne Fa Fb). destruct (f x); simpl; lia.
Qed.

Lemma index_conflict_inv (t : list Booking) (r : Booking) :
  index_conflict t r = true ->
  in_active_index r = true /\
  exists r2, In r2 t /\ id r2 <> id r /\ bus_id r2 = bus_id r /\
             seat_number r2 = seat_number r /\ in_active_index r2 = true.
Proof.
  unfold index_conflict. intros H. apply andb_prop in H as [Ha H]. split; [exact Ha|].
  apply existsb_exists in H as [r2 [Hin Hc]]. exists r2.
  apply andb_prop in Hc as [Hc H4]. apply andb_prop in Hc as [Hc H3].
  apply andb_prop in Hc as [H1 H2]. apply Z.eqb_eq in H2. apply Z.eqb_eq in H3.
  repeat split; auto. intros E. rewrite E, Z.eqb_refl in H1. discriminate.
Qed.

(** Under the index, an active row is the only active row on its key. *)
Lemma active_alone (t : list Booking) (r r2 : Booking) :
  ledger_ok t -> In r t -> in_active_index r = true ->
  In r2 t -> id r2 <> id r -> bus_id r2 = bus_id r -> seat_number r2 = seat_number r ->
  in_active_index r2 = true -> False.
Proof.
  intros [_ Hc] Hr Ha Hr2 Hne Hb Hs Ha2.
  pose proof (Hc (bus_id r) (seat_number r)) as H1. unfold count_active in H1.
  assert (Hh : forall x, bus_id x = bus_id r -> seat_number x = seat_number r ->
                in_active_index x = true -> holds (bus_id r) (seat_number r) x = true).
  { intros x Hbx Hsx Hax. unfold holds. rewrite Hbx, Hsx, Hax, !Z.eqb_refl. reflexivity. }
  assert (Hneq : r <> r2) by (intros E; subst; contradiction).
  pose proof (two_holds _ t r r2 Hr Hr2 Hneq (Hh r eq_refl eq_refl Ha) (Hh r2 Hb Hs Ha2)).
  lia.
Qed.

(** What the webhook does with a reference naming an existing booking:
    the update is rejected by the index exactly when it would make a
    cancelled booking paid while another pending or paid booking holds its
    (bus, seat). *)
Lemma webhook_matched_outcome (d : DB) (p : payload) (now i : Z) (r : Booking)
  (Hok : ledger_ok (bookings d))
  (Href : truthy (ext_reference p) = true)
  (Hparse : string_to_uuid (js_to_string (ext_reference p)) = Some i)
  (Hin : In r (bookings d)) (Hid : id r = i) :
  let r' := apply_patch now (webhook_updates p) r in
  let blocked := is_paid (ext_status p) = true /\ status r = Cancelled /\
      exists r2, In r2 (bookings d) /\ id r2 <> i /\ bus_id r2 = bus_id r /\
                 seat_number r2 = seat_number r /\ in_active_index r2 = true in
  (blocked -> webhook_core (PObject p) d now =
              (RespError (HDb UniqueViolation), d, None, true)) /\
  (~ blocked -> webhook_core (PObject p) d now =
               (RespOk, with_bookings d (replace_row i r' (bookings d)), Some r',
                is_paid (ext_status p))).
Proof.
  intros r' blocked.
  assert (Hcore : webhook_core (PObject p) d now =
     match update_booking d i (webhook_updates p) now with
     | Err e => (RespError (HDb e), d, None, is_paid (ext_status p))
     | Ok (d', o) => (RespOk, d', o, is_paid (ext_status p))
     end).
  { unfold webhook_core. simpl. rewrite Href. simpl. rewrite Hparse. reflexivity. }
  unfold update_booking in Hcore.
  rewrite (find_by_id_unique _ r i (proj1 Hok) Hin Hid) in Hcore. fold r' in Hcore.
  assert (Hr'id : id r' = id r) by reflexivity.
  assert (Hr'b : bus_id r' = bus_id r) by reflexivity.
  assert (Hr's : seat_number r' = seat_number r) by reflexivity.
  assert (Hr'st : status r' = if is_paid (ext_status p) then Paid else status r).
  { unfold r', apply_patch, webhook_updates. simpl. destruct (is_paid (ext_status p)); reflexivity. }
  split.
  - intros [Hp [Hcan [r2 [Hr2 [Hne [Hb [Hs Ha2]]]]]]].
    rewrite (conflict_found (bookings d) r' r2) in Hcore.
    + rewrite Hp in Hcore. exact Hcore.
    + exact Hr2.
    + rewrite Hr'id, Hid. exact Hne.
    + rewrite Hr'b. exact Hb.
    + rewrite Hr's. exact Hs.
    + exact Ha2.
    + unfold in_active_index. rewrite Hr'st, Hp. reflexivity.
  - intros Hnb. destruct (index_conflict (bookings d) r') eqn:Hc; [|exact Hcore].
    exfalso. apply index_conflict_inv in Hc as [Ha' [r2 [Hr2 [Hne [Hb [Hs Ha2]]]]]].
    rewrite Hr'id in Hne. rewrite Hr'b in Hb. rewrite Hr's in Hs.
    destruct (in_active_index r) eqn:Ha.
    + exact (active_alone _ r r2 Hok Hin Ha Hr2 Hne Hb Hs Ha2).
    + apply Hnb. unfold in_active_index in Ha', Ha. rewrite Hr'st in Ha'.
      destruct (is_paid (ext_status p)); [|rewrite Ha in Ha'; discriminate].
      split; [reflexivity|]. split; [destruct (status r); congruence|].
      exists r2. rewrite <- Hid. auto.
Qed.

(** ** C5: what a webhook writes *)

(** C5 (as stated, refuted). Booking 100 was cancelled and its seat has
    been booked again; a "Paid" callback for booking 100 does not make it
    paid: the unique index rejects the update and the webhook answers
    500, leaving the booking cancelled. *)
Lemma C5_counterexample :
  hubtel_webhook false (PObject paid_payload) db_rebooked 5 =
    (RespError (HDb UniqueViolation), db_rebooked) /\
  status_of db_rebooked 100 = Some Cancelled.
Proof. split; vm_compute; reflexivity. Qed.

(** C5 (amended). For a payload whose reference parses as the id [i] of
    an existing booking [r] (in a state satisfying the index), the row the
    webhook writes has: status [paid] when the extracted status is one of
    the five listed strings (exact match), its old status otherwise;
    [payment_reference = transactionId ?? reference]; [receipt_url] the
    extracted [receiptUrl] when truthy, its old value otherwise. The write
    succeeds (200) unless the status is a paid one, [r] is cancelled and
    another pending or paid booking holds its (bus, seat): then the unique
    index rejects it, the webhook answers 500 and nothing changes. A
    non-paid status is never rejected. *)
Theorem C5_webhook_updates (d : DB) (p : payload) (now i : Z) (r : Booking)
  (Hok : ledger_ok (bookings d))
  (Href : truthy (ext_reference p) = true)
  (Hparse : string_to_uuid (js_to_string (ext_reference p)) = Some i)
  (Hin : In r (bookings d)) (Hid : id r = i) :
  let r' := apply_patch now (webhook_updates p) r in
  let blocked := is_paid (ext_status p) = true /\ status r = Cancelled /\
      exists r2, In r2 (bookings d) /\ id r2 <> i /\ bus_id r2 = bus_id r /\
                 seat_number r2 = seat_number r /\ in_active_index r2 = true in
  (is_paid (ext_status p) = true <->
   exists s, ext_status p = Some (JStr s) /\ In s paidStates) /\
  status r' = (if is_paid (ext_status p) then Paid else status r) /\
  payment_reference r' = js_coalesce (ext_transaction_id p) (ext_reference p) /\
  receipt_url r' = (if truthy (ext_receipt_url p) then ext_receipt_url p else receipt_url r) /\
  (blocked -> hubtel_webhook false (PObject p) d now =
              (RespError (HDb UniqueViolation), d)) /\
  (~ blocked -> hubtel_webhook false (PObject p) d now =
               (RespOk, with_bookings d (replace_row i r' (bookings d)))) /\
  (is_paid (ext_status p) = false -> ~ blocked).
Proof.
  intros r' blocked.
  destruct (webhook_matched_outcome d p now i r Hok Href Hparse Hin Hid) as [Hb Hnb].
  fold r' blocked in Hb, Hnb.
  split; [|split; [|split; [|split; [|split; [|split]]]]].
  - unfold is_paid. split.
    + destruct (ext_status p) as [[]|]; try discriminate.
      intros H. apply existsb_exists in H as [s' [Hs' E]]. apply String.eqb_eq in E.
      subst. eexists; split; [reflexivity | exact Hs'].
    + intros [s [-> Hs]]. apply existsb_exists. exists s. split; [exact Hs | apply String.eqb_refl].
  - unfold r', apply_patch, webhook_updates. simpl. destruct (is_paid (ext_status p)); reflexivity.
  - unfold r', apply_patch, webhook_updates. simpl.
    destruct (ext_reference p) as [v|] eqn:Er; [|discriminate].
    destruct (ext_transaction_id p) as [[]|]; reflexivity.
  - unfold r', apply_patch, webhook_updates. simpl.
    destruct (truthy (ext_receipt_url p)) eqn:Et; [|reflexivity].
    destruct (ext_receipt_url p); [reflexivity | discriminate].
  - intros H. unfold hubtel_webhook. rewrite (Hb H). reflexivity.
  - intros H. unfold hubtel_webhook. rewrite (Hnb H). reflexivity.
  - intros Hp [Hp' _]. congruence.
Qed.

Lemma C5_witness :
  ledger_ok (bookings (db_single Pending)) /\
  hubtel_webhook false (PObject paid_payload) (db_single Pending) 5 =
    (RespOk, with_bookings (db_single Pending)
       (replace_row 100 (apply_patch 5 (webhook_updates paid_payload) (booking100 Pending))
          (bookings (db_single Pending)))).
Proof.
  assert (Hok : ledger_ok (bookings (db_single Pending))).
  { split; [repeat constructor; simpl; tauto|].
    intros b n. unfold count_active. simpl. destruct (holds b n _); simpl; lia. }
  split; [exact Hok|].
  refine (proj1 (proj2 (proj2 (proj2 (proj2 (proj2
    (C5_webhook_updates (db_single Pending) paid_payload 5 100 (booking100 Pending)
       Hok eq_refl _ _ eq_refl)))))) _).
  - vm_compute. reflexivity.
  - left. reflexivity.
  - intros [_ [H _]]. discriminate.
Defined.

(** ** C9: a paid callback on a cancelled booking *)

(** C9 (as stated, refuted). A "Success" callback naming the cancelled
    booking 100, whose seat has been booked again, leaves it cancelled. *)
Lemma C9_counterexample :
  let body := PObject [("ClientReference", JStr ref100); ("Status", JStr "Success")]%string in
  status_of db_rebooked 100 = Some Cancelled /\
  status_of (snd (hubtel_webhook false body db_rebooked 9)) 100 = Some Cancelled /\
  resp_code (fst (hubtel_webhook false body db_rebooked 9)) = 500.
Proof. split; [|split]; vm_compute; reflexivity. Qed.

(** C9 (amended). The update filters on the id only: a paid callback
    naming a cancelled booking makes it paid (cancelled -> paid) whenever
    no other pending or paid booking holds its (bus, seat); when one does,
    the unique index rejects the update, the webhook answers 500 and the
    booking stays cancelled. *)
Theorem C9_cancelled_to_paid (d : DB) (p : payload) (now i : Z) (r : Booking)
  (Hok : ledger_ok (bookings d))
  (Href : truthy (ext_reference p) = true)
  (Hparse : string_to_uuid (js_to_string (ext_reference p)) = Some i)
  (Hin : In r (bookings d)) (Hid : id r = i)
  (Hcan : status r = Cancelled) (Hpaid : is_paid (ext_status p) = true) :
  let taken := exists r2, In r2 (bookings d) /\ id r2 <> i /\ bus_id r2 = bus_id r /\
                 seat_number r2 = seat_number r /\ in_active_index r2 = true in
  (~ taken ->
   exists d', hubtel_webhook false (PObject p) d now = (RespOk, d') /\
              status_of d' i = Some Paid) /\
  (taken ->
   hubtel_webhook false (PObject p) d now = (RespError (HDb UniqueViolation), d) /\
   status_of d i = Some Cancelled).
Proof.
  intros taken.
  destruct (webhook_matched_outcome d p now i r Hok Href Hparse Hin Hid) as [Hb Hnb].
  assert (Hfind : find (fun x => id x =? i) (bookings d) = Some r)
    by exact (find_by_id_unique _ r i (proj1 Hok) Hin Hid).
  split.
  - intros Hnt. eexists. split.
    + unfold hubtel_webhook. rewrite Hnb; [reflexivity|].
      intros [_ [_ Ht]]. exact (Hnt Ht).
    + unfold status_of. simpl.
      rewrite (find_replace_same _ i r) by (simpl; assumption || exact Hfind).
      unfold apply_patch, webhook_updates. simpl. rewrite Hpaid. reflexivity.
  - intros Ht. split.
    + unfold hubtel_webhook. rewrite Hb; [reflexivity|]. auto.
    + unfold status_of. rewrite Hfind, Hcan. reflexivity.
Qed.

Lemma C9_witness :
  exists d', hubtel_webhook false (PObject paid_payload) (db_single Cancelled) 5 = (RespOk, d') /\
             status_of d' 100 = Some Paid.
Proof.
  assert (Hok : ledger_ok (bookings (db_single Cancelled))).
  { split; [repeat constructor; simpl; tauto|].
    intros b n. unfold count_active. simpl. destruct (holds b n _); simpl; lia. }
  refine (proj1 (C9_cancelled_to_paid (db_single Cancelled) paid_payload 5 100
            (booking100 Cancelled) Hok eq_refl _ _ eq_refl eq_refl eq_refl) _).
  - vm_compute. reflexivity.
  - left. reflexivity.
  - intros [r2 [[<-|[]] [Hne _]]]. apply Hne. reflexivity.
Defined.

(** ** C6: redelivery of a callback *)

(** C6 (as stated, refuted). Delivering the paid callback for booking 100
    at time 5 and again at time 6 does not leave the same booking row as
    delivering it once: the [BEFORE UPDATE] trigger rewrites [updated_at]
    on the second (otherwise identical) write. *)
Lemma C6_counterexample :
  let once := snd (hubtel_webhook false (PObject paid_payload) (db_single Pending) 5) in
  let twice := snd (hubtel_webhook false (PObject paid_payload) once 6) in
  fst (hubtel_webhook false (PObject paid_payload) once 6) = RespOk /\
  map updated_at (bookings once) = [5] /\
  map updated_at (bookings twice) = [6] /\
  map status (bookings twice) = map status (bookings once) /\
  map payment_reference (bookings twice) = map payment_reference (bookings once) /\
  twice <> once.
Proof.
  intros once twice.
  split; [|split; [|split; [|split; [|split]]]]; try (vm_compute; reflexivity).
  intros H. apply (f_equal (fun e => map updated_at (bookings e))) in H.
  vm_compute in H. discriminate.
Qed.

Lemma strip_replace_row (i : Z) (a b : Booking) (t : list Booking) :
  strip_updated_at a = strip_updated_at b ->
  map strip_updated_at (replace_row i a t) = map strip_updated_at (replace_row i b t).
Proof.
  intros H. induction t as [|x t IH]; simpl; [reflexivity|].
  destruct (id x =? i); simpl; rewrite IH; [rewrite H|]; reflexivity.
Qed.

(** C6 (amended). Delivering the same request twice, at [t1] then [t2],
    gives the same response both times (so the second errs only when the
    first did) and leaves the database exactly as a single delivery at
    [t2] would; a single delivery at [t1] or at [t2] leaves every column
    of every booking equal except [updated_at], which the trigger sets to
    the time of the last write. *)
Theorem C6_webhook_redelivery (body : ParsedBody) (d : DB) (t1 t2 : Z) :
  let once1 := hubtel_webhook false body d t1 in
  let once2 := hubtel_webhook false body d t2 in
  let twice := hubtel_webhook false body (snd once1) t2 in
  fst twice = fst once1 /\ fst once2 = fst once1 /\
  snd twice = snd once2 /\
  map strip_updated_at (bookings (snd once2)) = map strip_updated_at (bookings (snd once1)) /\
  (buses (snd twice) = buses d /\ seats (snd twice) = seats d).
Proof.
  intros once1 once2 twice. unfold twice, once1, once2, hubtel_webhook, webhook_core.
  destruct (payload_of body) as [p|]; [|repeat split; reflexivity].
  destruct (negb (truthy (ext_reference p))); [repeat split; reflexivity|].
  destruct (string_to_uuid (js_to_string (ext_reference p))) as [i|];
    [|repeat split; reflexivity].
  unfold update_booking.
  destruct (find (fun r => id r =? i) (bookings d)) as [r|] eqn:Hf;
    [|simpl; rewrite Hf; repeat split; reflexivity].
  pose proof (find_some _ _ Hf) as [_ Hid]. apply Z.eqb_eq in Hid.
  set (u := webhook_updates p).
  assert (Hkey : forall ta tb, index_conflict (bookings d) (apply_patch ta u r) =
                               index_conflict (bookings d) (apply_patch tb u r))
    by (intros; apply index_conflict_key; reflexivity).
  rewrite (Hkey t2 t1).
  destruct (index_conflict (bookings d) (apply_patch t1 u r)) eqn:Hc.
  - simpl. rewrite Hf, (Hkey t2 t1), Hc. repeat split; reflexivity.
  - simpl. rewrite (find_replace_same _ i r) by (exact Hid || exact Hf).
    rewrite apply_patch_twice, index_conflict_replace by exact Hid.
    rewrite (Hkey t2 t1), Hc. simpl.
    rewrite replace_row_twice by exact Hid.
    repeat split; try reflexivity.
    apply strip_replace_row. reflexivity.
Qed.

(** ** C4: the admin screen's status buttons *)

(** The screen as just loaded shows each booking's stored status. *)
Lemma shown_loadBookings (d : DB) (i : Z) : shown (loadBookings d) i = status_of d i.
Proof.
  unfold shown, loadBookings, status_of.
  induction (bookings d) as [|r t IH]; simpl; [reflexivity|].
  destruct (id r =? i); [reflexivity | exact IH].
Qed.

(** A status update that finds its row and passes the index stores the
    new status. *)
Lemma updateBookingStatus_stores (d d' : DB) (i : Z) (s : Status) (now : Z)
  (o : option Booking) (r : Booking) :
  find (fun x => id x =? i) (bookings d) = Some r ->
  updateBookingStatus d i s now = Ok (d', o) -> status_of d' i = Some s.
Proof.
  intros Hf. unfold updateBookingStatus, update_booking. rewrite Hf.
  destruct (index_conflict _ _); [discriminate|]. intros H. inversion H; subst.
  unfold status_of. simpl.
  pose proof (find_some _ _ Hf) as [_ E]. apply Z.eqb_eq in E.
  rewrite (find_replace_same _ i r) by (exact E || exact Hf). reflexivity.
Qed.

(** C4 (as stated, refuted). The screen keeps the list it loaded; the
    update filters on the id only. Loaded while booking 100 was cancelled,
    it still shows "Restore" after a paid callback has made the booking
    paid, and the click moves it paid -> pending; loaded while the booking
    was pending, "Cancel" moves it paid -> cancelled after the callback. *)
Lemma C4_counterexample :
  let d1 := snd (hubtel_webhook false (PObject paid_payload) (db_single Cancelled) 5) in
  let d2 := snd (hubtel_webhook false (PObject paid_payload) (db_single Pending) 5) in
  status_of d1 100 = Some Paid /\
  option_map (fun x => status_of (snd x) 100)
    (admin_click (loadBookings (db_single Cancelled)) d1 100 Pending 6) = Some (Some Pending) /\
  status_of d2 100 = Some Paid /\
  option_map (fun x => status_of (snd x) 100)
    (admin_click (loadBookings (db_single Pending)) d2 100 Cancelled 6) = Some (Some Cancelled).
Proof. vm_compute. repeat split. Qed.

(** C4 (code as written). A click exists only for a status offered by
    the status the screen shows: pending -> paid, pending -> cancelled,
    cancelled -> pending. On a screen loaded after the last change, it goes
    from the stored status to an offered one, and a paid booking has no
    button. But the screen's status can be stale, and the update is by id
    only: whatever the stored status, an offered click whose row passes the
    index stores the new status, so paid -> pending and paid -> cancelled
    happen. *)
Theorem C4_admin_transitions :
  (forall from to, admin_offers from to <->
     (from = Pending /\ to = Paid) \/ (from = Pending /\ to = Cancelled) \/
     (from = Cancelled /\ to = Pending)) /\
  (forall sc d i s now sc' d', admin_click sc d i s now = Some (sc', d') ->
     exists cur, shown sc i = Some cur /\ admin_offers cur s) /\
  (forall d i s now sc' d', admin_click (loadBookings d) d i s now = Some (sc', d') ->
     exists cur, status_of d i = Some cur /\ admin_offers cur s /\
                 (status_of d' i = Some s \/ d' = d)) /\
  (forall d i s now, status_of d i = Some Paid -> admin_click (loadBookings d) d i s now = None) /\
  (forall sc d i s now cur r, shown sc i = Some cur -> admin_offers cur s ->
     find (fun x => id x =? i) (bookings d) = Some r ->
     index_conflict (bookings d) (apply_patch now (mkPatch (Some s) None None) r) = false ->
     exists sc' d', admin_click sc d i s now = Some (sc', d') /\ status_of d' i = Some s).
Proof.
  assert (Hoff : forall cur s, existsb (status_eqb s) (admin_actions cur) = true <->
                               admin_offers cur s).
  { intros cur s. unfold admin_offers. destruct cur, s; simpl; intuition discriminate. }
  split; [|split; [|split; [|split]]].
  - intros from to. unfold admin_offers.
    destruct from, to; simpl; intuition discriminate.
  - intros sc d i s now sc' d'. unfold admin_click.
    destruct (shown sc i) as [cur|]; [|discriminate].
    destruct (existsb (status_eqb s) (admin_actions cur)) eqn:E; [|discriminate].
    intros _. exists cur. split; [reflexivity | apply Hoff; exact E].
  - intros d i s now sc' d' Hclick. unfold admin_click in Hclick.
    rewrite shown_loadBookings in Hclick.
    destruct (status_of d i) as [cur|] eqn:Hcur; [|discriminate].
    destruct (existsb (status_eqb s) (admin_actions cur)) eqn:E; [|discriminate].
    exists cur. split; [reflexivity|]. split; [apply Hoff; exact E|].
    unfold status_of in Hcur.
    destruct (find (fun r => id r =? i) (bookings d)) as [r|] eqn:Hf; [|discriminate].
    destruct (updateBookingStatus d i s now) as [[d1 o]|e] eqn:Hu;
      inversion Hclick; subst.
    + left. eapply updateBookingStatus_stores; eassumption.
    + right. reflexivity.
  - intros d i s now H. unfold admin_click. rewrite shown_loadBookings, H. reflexivity.
  - intros sc d i s now cur r Hsh Hof Hf Hc. unfold admin_click. rewrite Hsh.
    apply Hoff in Hof. rewrite Hof.
    destruct (updateBookingStatus d i s now) as [[d1 o]|e] eqn:Hu.
    + exists (map (fun e => if fst e =? i then (fst e, s) else e) sc), d1. split; [reflexivity|].
      exact (updateBookingStatus_stores d d1 i s now o r Hf Hu).
    + exfalso. unfold updateBookingStatus, update_booking in Hu. rewrite Hf, Hc in Hu.
      discriminate.
Qed.

(** ** C8: callbacks that match no booking *)

(** C8 (as stated, refuted). A callback whose reference is ["abc"] matches
    no booking, yet the webhook answers 500: PostgreSQL refuses to cast
    ["abc"] to [uuid] in the [.eq("id", reference)] filter, and the handler
    returns every query error as a 500. *)
Lemma C8_counterexample :
  let body := PObject [("clientReference", JStr "abc"); ("status", JStr "Success")]%string in
  string_to_uuid "abc" = None /\
  hubtel_webhook false body (db_single Pending) 5 =
    (RespError (HDb (InvalidUuid "abc")), db_single Pending) /\
  resp_code (fst (hubtel_webhook false body (db_single Pending) 5)) = 500.
Proof. split; [|split]; vm_compute; reflexivity. Qed.

Lemma find_by_id_absent (t : list Booking) (i : Z) :
  ~ In i (map id t) -> find (fun x => id x =? i) t = None.
Proof.
  intros H. destruct (find (fun x => id x =? i) t) as [r|] eqn:Hf; [|reflexivity].
  apply find_some in Hf as [Hin E]. apply Z.eqb_eq in E. exfalso. apply H.
  rewrite <- E. apply in_map. exact Hin.
Qed.

(** C8 (amended). For a body other than JSON [null] (whose property reads
    throw; that case is not covered here): when no reference can be
    extracted the webhook answers 200 [{ok:true}] and changes nothing;
    when the reference is a well-formed UUID naming no booking, likewise
    200 and nothing changes; a reference that is not UUID syntax is
    answered 500 by the database error path, also without any change. *)
Theorem C8_unmatched_reference (body : ParsedBody) (d : DB) (now : Z) :
  (forall p, payload_of body = Some p -> truthy (ext_reference p) = false ->
     hubtel_webhook false body d now = (RespOk, d)) /\
  (forall p i, payload_of body = Some p -> truthy (ext_reference p) = true ->
     string_to_uuid (js_to_string (ext_reference p)) = Some i ->
     ~ In i (map id (bookings d)) ->
     hubtel_webhook false body d now = (RespOk, d)) /\
  (forall p, payload_of body = Some p -> truthy (ext_reference p) = true ->
     string_to_uuid (js_to_string (ext_reference p)) = None ->
     hubtel_webhook false body d now =
       (RespError (HDb (InvalidUuid (js_to_string (ext_reference p)))), d)).
Proof.
  unfold hubtel_webhook, webhook_core.
  split; [|split].
  - intros p Hp Hr. rewrite Hp, Hr. reflexivity.
  - intros p i Hp Hr Hu Hn. rewrite Hp, Hr, Hu. simpl.
    unfold update_booking. rewrite find_by_id_absent by exact Hn. reflexivity.
  - intros p Hp Hr Hu. rewrite Hp, Hr, Hu. reflexivity.
Qed.

Lemma C8_witness :
  hubtel_webhook false (PObject [("status", JStr "Success")]%string) (db_single Pending) 5 =
    (RespOk, db_single Pending) /\
  hubtel_webhook false
    (PObject [("clientReference", JStr "00000000-0000-0000-0000-0000000000ff")]%string)
    (db_single Pending) 5 = (RespOk, db_single Pending).
Proof.
  split.
  - apply (proj1 (C8_unmatched_reference (PObject [("status", JStr "Success")]%string)
                    (db_single Pending) 5) _ eq_refl).
    vm_compute. reflexivity.
  - apply (proj1 (proj2 (C8_unmatched_reference
      (PObject [("clientReference", JStr "00000000-0000-0000-0000-0000000000ff")]%string)
      (db_single Pending) 5)) _ 255 eq_refl).
    + vm_compute. reflexivity.
    + vm_compute. reflexivity.
    + simpl. lia.
Defined.

(** ** C7: the paid-confirmation SMS *)

(** C7 (as stated, refuted). A Hubtel callback reporting booking 100 as
    paid, delivered to hubtel-webhook/index.ts (the [callbackUrl] the
    checkout registers), makes the booking paid and sends nothing; the SMS
    code lives in hubtel-create-payment/index.ts, whose module never loads,
    so its SMS-sending handler answers nothing either. *)
Lemma C7_counterexample :
  status_of (db_single Pending) 100 = Some Pending /\
  match callback_endpoint false (PObject paid_payload) (db_single Pending) 5 with
  | Handled (r, d') => resp_code r = 200 /\ status_of d' 100 = Some Paid
  | BootError => False
  end /\
  sms_webhook_endpoint false (PObject paid_payload) (db_single Pending) 5 = BootError.
Proof. vm_compute. repeat split. Qed.

(** C7 (code as written). hubtel-create-payment/index.ts declares
    [corsHeaders] twice at its top level, so the module is rejected when it
    loads: every request to it, the checkout creation as well as the
    SMS-sending webhook copy, fails before a handler runs, and no SMS is
    ever sent. hubtel-webhook/index.ts loads and serves callbacks with
    [hubtel_webhook], whose result carries no SMS task; the admin screen's
    click ([admin_click]) only updates the row. *)
Theorem C7_sms_on_paid :
  has_dup create_payment_toplevel = true /\
  has_dup hubtel_webhook_toplevel = false /\
  (forall is_options body d now, sms_webhook_endpoint is_options body d now = BootError) /\
  (forall is_options body creds origin str_num fetch,
     checkout_endpoint is_options body creds origin str_num fetch = BootError) /\
  (forall is_options body d now,
     callback_endpoint is_options body d now = Handled (hubtel_webhook is_options body d now)).
Proof.
  split; [reflexivity|]. split; [reflexivity|].
  split; [intros; reflexivity|]. split; intros; reflexivity.
Qed.

(** ** The UUID text round trip *)

Lemma hex_digit_cases (n : Z) : 0 <= n < 16 -> In n (map Z.of_nat (seq 0 16)).
Proof.
  intros H. apply in_map_iff. exists (Z.to_nat n).
  split; [lia | apply in_seq; lia].
Qed.

Lemma hex_val_hex_char (n : Z) : 0 <= n < 16 -> hex_val (hex_char n) = Some n.
Proof.
  intros H. apply hex_digit_cases in H. simpl in H.
  repeat (destruct H as [<-|H]; [reflexivity|]). destruct H.
Qed.

Lemma hex_char_not_dash (n : Z) : 0 <= n < 16 -> hex_char n <> "-"%char.
Proof.
  intros H. apply hex_digit_cases in H. simpl in H.
  repeat (destruct H as [<-|H]; [discriminate|]). destruct H.
Qed.

Lemma hex_char_not_brace (n : Z) : 0 <= n < 16 -> hex_char n <> "{"%char.
Proof.
  intros H. apply hex_digit_cases in H. simpl in H.
  repeat (destruct H as [<-|H]; [discriminate|]). destruct H.
Qed.

Lemma uuid_text_bytes (v : Z) :
  list_ascii_of_string (uuid_text v) = flat_map (byte_chars v) (seq 0 16).
Proof. unfold uuid_text. rewrite list_ascii_of_string_of_list_ascii. reflexivity. Qed.

(** The optional hyphen after a byte is only skipped when it is there. *)
Lemma skip_dash_other (c : ascii) (r : list ascii) (b : bool) :
  c <> "-"%char ->
  match c :: r with
  | "-"%char :: r' => if b then r' else c :: r
  | _ => c :: r
  end = c :: r.
Proof.
  intros H. destruct c as [[] [] [] [] [] [] [] []]; try reflexivity.
  exfalso. apply H. reflexivity.
Qed.

Lemma nibble_step (v k : Z) : 0 <= v -> 0 <= k ->
  v / 16 ^ (2 * k + 2) * 256 + (v / 16 ^ (2 * k + 1)) mod 16 * 16 +
  (v / 16 ^ (2 * k)) mod 16 = v / 16 ^ (2 * k).
Proof.
  intros Hv Hk. set (w := v / 16 ^ (2 * k)).
  assert (Hp : 0 < 16 ^ (2 * k)) by (apply Z.pow_pos_nonneg; lia).
  assert (E1 : v / 16 ^ (2 * k + 1) = w / 16).
  { unfold w. rewrite Z.div_div by lia. f_equal. rewrite Z.pow_add_r by lia. try ring. }
  assert (E2 : v / 16 ^ (2 * k + 2) = w / 16 / 16).
  { unfold w. rewrite !Z.div_div by lia. f_equal.
    rewrite Z.pow_add_r by lia. try ring. }
  rewrite E1, E2.
  pose proof (Z.div_mod w 16 ltac:(lia)) as D1.
  pose proof (Z.div_mod (w / 16) 16 ltac:(lia)) as D2.
  lia.
Qed.

Lemma uuid_bytes_text (v : Z) (k : nat) : 0 <= v -> (k <= 16)%nat ->
  uuid_bytes k (Z.of_nat (16 - k)) (flat_map (byte_chars v) (seq (16 - k) k))
    (v / 16 ^ (2 * Z.of_nat k)) = Some (v, []).
Proof.
  intros Hv. induction k as [|k IH]; intros Hk.
  - simpl. rewrite Z.div_1_r. reflexivity.
  - replace (seq (16 - S k) (S k)) with ((16 - S k)%nat :: seq (16 - k) k)
      by (replace (16 - k)%nat with (S (16 - S k)) by lia; reflexivity).
    set (j := (16 - S k)%nat).
    assert (E31 : 31 - Z.of_nat (2 * j) = 2 * Z.of_nat k + 1) by (unfold j; lia).
    assert (E30 : 31 - Z.of_nat (2 * j + 1) = 2 * Z.of_nat k) by (unfold j; lia).
    assert (Hb1 : 0 <= (v / 16 ^ (2 * Z.of_nat k + 1)) mod 16 < 16)
      by (apply Z.mod_pos_bound; lia).
    assert (Hb2 : 0 <= (v / 16 ^ (2 * Z.of_nat k)) mod 16 < 16)
      by (apply Z.mod_pos_bound; lia).
    cbn [flat_map]. unfold byte_chars at 1. rewrite E31, E30.
    cbn [app uuid_bytes]. rewrite !hex_val_hex_char by assumption.
    replace (Z.of_nat j + 1) with (Z.of_nat (16 - k)) by (unfold j; lia).
    replace (v / 16 ^ (2 * Z.of_nat (S k)) * 256 + (v / 16 ^ (2 * Z.of_nat k + 1)) mod 16 * 16 +
             (v / 16 ^ (2 * Z.of_nat k)) mod 16) with (v / 16 ^ (2 * Z.of_nat k)).
    2:{ replace (2 * Z.of_nat (S k)) with (2 * Z.of_nat k + 2) by lia.
        symmetry. apply nibble_step; lia. }
    rewrite <- (IH ltac:(lia)). f_equal.
    destruct (existsb (Nat.eqb (2 * j + 1)) [7; 11; 15; 19]%nat) eqn:Hd.
    + assert (Hj : j = 3%nat \/ j = 5%nat \/ j = 7%nat \/ j = 9%nat).
      { simpl in Hd. repeat rewrite orb_true_iff in Hd. rewrite !Nat.eqb_eq in Hd. lia. }
      cbn [app]. destruct Hj as [Hj|[Hj|[Hj|Hj]]]; rewrite Hj; reflexivity.
    + rewrite app_nil_l. destruct k as [|k'].
      * reflexivity.
      * replace (seq (16 - S k') (S k')) with ((16 - S k')%nat :: seq (16 - k') k')
          by (replace (16 - k')%nat with (S (16 - S k')) by lia; reflexivity).
        cbn [flat_map]. unfold byte_chars at 1. cbn [app].
        apply skip_dash_other. apply hex_char_not_dash. apply Z.mod_pos_bound. lia.
Qed.

Lemma uuid_text_parse (v : Z) : 0 <= v < 2 ^ 128 ->
  string_to_uuid (uuid_text v) = Some v.
Proof.
  intros Hv. unfold string_to_uuid. rewrite uuid_text_bytes.
  pose proof (uuid_bytes_text v 16 ltac:(lia) ltac:(lia)) as H.
  replace (v / 16 ^ (2 * Z.of_nat 16)) with 0 in H
    by (symmetry; apply Z.div_small; change (16 ^ (2 * Z.of_nat 16)) with (2 ^ 128); lia).
  change (Z.of_nat (16 - 16)) with 0 in H. change (seq (16 - 16) 16) with (seq 0 16) in H.
  assert (Hfirst : exists c rest, flat_map (byte_chars v) (seq 0 16) = c :: rest /\
                                  c <> "{"%char).
  { eexists. eexists. split; [cbn [seq flat_map]; unfold byte_chars at 1; reflexivity|].
    apply hex_char_not_brace, Z.mod_pos_bound. lia. }
  destruct Hfirst as [c [rest [E Hc]]]. rewrite E in H |- *.
  destruct c as [[] [] [] [] [] [] [] []];
    try (exfalso; apply Hc; reflexivity); rewrite H; reflexivity.
Qed.

Lemma uuid_text_nonempty (v : Z) : String.eqb (uuid_text v) EmptyString = false.
Proof. reflexivity. Qed.

(** X1. PostgreSQL reads back every UUID it prints: the canonical text of
    a 128-bit value (the form PostgREST returns for a booking's [id], and
    the form a client passes on as a reference) parses to that value. *)
Theorem X1_uuid_text_round_trip (v : Z) (Hv : 0 <= v < 2 ^ 128) :
  string_to_uuid (uuid_text v) = Some v.
Proof. apply uuid_text_parse. exact Hv. Qed.

Lemma X1_witness :
  0 <= 100 < 2 ^ 128 /\ string_to_uuid (uuid_text 100) = Some 100.
Proof.
  split; [lia|]. apply X1_uuid_text_round_trip. lia.
Defined.

(** ** What the webhooks and the admin screen write *)

Lemma Forall2_map_self {A} (P : A -> A -> Prop) (f : A -> A) (t : list A) :
  (forall x, In x t -> P x (f x)) -> Forall2 P t (map f t).
Proof.
  induction t as [|x t IH]; intros H; constructor.
  - apply H. left. reflexivity.
  - apply IH. intros y Hy. apply H. right. exact Hy.
Qed.

Lemma nodup_id_eq (t : list Booking) (x r : Booking) :
  NoDup (map id t) -> In x t -> In r t -> id x = id r -> x = r.
Proof.
  induction t as [|y t IH]; intros Hnd Hx Hr E; [contradiction|].
  simpl in Hnd. inversion Hnd as [|? ? Hy Hnd']; subst.
  destruct Hx as [<-|Hx], Hr as [<-|Hr]; auto.
  - exfalso. apply Hy. rewrite E. apply in_map. exact Hr.
  - exfalso. apply Hy. rewrite <- E. apply in_map. exact Hx.
Qed.

Lemma update_status_find (d : DB) (r : Booking) (s : Status) (now : Z) :
  ledger_ok (bookings d) -> In r (bookings d) ->
  updateBookingStatus d (id r) s now =
    let r' := apply_patch now (mkPatch (Some s) None None) r in
    if index_conflict (bookings d) r' then Err UniqueViolation
    else Ok (with_bookings d (replace_row (id r) r' (bookings d)), Some r').
Proof.
  intros Hok Hin. unfold updateBookingStatus, update_booking.
  rewrite (find_by_id_unique _ r (id r) (proj1 Hok) Hin eq_refl). reflexivity.
Qed.

Lemma status_of_replace (d : DB) (r r' : Booking) :
  NoDup (map id (bookings d)) -> In r (bookings d) -> id r' = id r ->
  status_of (with_bookings d (replace_row (id r) r' (bookings d))) (id r) = Some (status r').
Proof.
  intros Hnd Hin Hid. unfold status_of. simpl.
  rewrite (find_replace_same _ _ r); [reflexivity | exact Hid |].
  apply find_by_id_unique; auto.
Qed.

Lemma in_replace_row (i : Z) (r' x : Booking) (t : list Booking) :
  In x (replace_row i r' t) -> x = r' \/ (In x t /\ id x <> i).
Proof.
  unfold replace_row. intros H. apply in_map_iff in H as [y [Hy Hin]].
  destruct (id y =? i) eqn:E; [left; congruence|].
  right. subst y. split; [exact Hin|]. apply Z.eqb_neq. exact E.
Qed.

Lemma in_seat_status_view (d : DB) (B : Z) (x : SeatStatus) :
  In x (seat_status_view d B) ->
  exists s, In s (seats d) /\ seat_bus_id s = B /\ x = seat_row_status d s.
Proof.
  unfold seat_status_view. intros H.
  apply (Permutation_in _ (order_by_seat_perm _)) in H.
  apply in_map_iff in H as [s [<- Hs]]. apply filter_In in Hs as [Hs E].
  exists s. split; [exact Hs|]. split; [apply Z.eqb_eq; exact E | reflexivity].
Qed.

(** The two outcomes of [webhook_core]: the database is left as it was
    and no row is returned, or the row whose id the reference parses to is
    replaced by its patched version, which is returned. *)
Lemma webhook_core_shape (body : ParsedBody) (d : DB) (now : Z) :
  match webhook_core body d now with
  | (_, d', o, paid) =>
      (d' = d /\ o = None) \/
      exists p i r, payload_of body = Some p /\ paid = is_paid (ext_status p) /\
        string_to_uuid (js_to_string (ext_reference p)) = Some i /\
        find (fun x => id x =? i) (bookings d) = Some r /\ id r = i /\
        o = Some (apply_patch now (webhook_updates p) r) /\
        d' = with_bookings d (replace_row i (apply_patch now (webhook_updates p) r)
                                (bookings d))
  end.
Proof.
  unfold webhook_core.
  destruct (payload_of body) as [p|] eqn:Hp; [|left; split; reflexivity].
  destruct (negb (truthy (ext_reference p))); [left; split; reflexivity|].
  destruct (string_to_uuid (js_to_string (ext_reference p))) as [i|] eqn:Hu;
    [|left; split; reflexivity].
  unfold update_booking.
  destruct (find (fun r => id r =? i) (bookings d)) as [r|] eqn:Hf;
    [|left; split; reflexivity].
  destruct (index_conflict (bookings d) (apply_patch now (webhook_updates p) r));
    [left; split; reflexivity|].
  right. exists p, i, r.
  pose proof (find_some _ _ Hf) as [_ E]. apply Z.eqb_eq in E.
  repeat split; auto.
Qed.

(** X5. hubtel-webhook leaves every table but [bookings] unchanged and
    keeps the booking rows in place (given distinct booking ids, as the
    primary key ensures): each row is either unchanged or it is the row
    whose id is the callback's reference (a POST whose body is an object
    with a reference parsing as that UUID), and then it keeps its id,
    customer, trip, seat, amount and creation time, gets
    [updated_at = now], and becomes paid when the callback's status is a
    paid one, keeping its status otherwise. *)
Theorem X5_webhook_frame (is_options : bool) (body : ParsedBody) (d : DB) (now : Z)
  (Hpk : NoDup (map id (bookings d))) :
  let d' := snd (hubtel_webhook is_options body d now) in
  buses d' = buses d /\ pickup_points d' = pickup_points d /\
  destinations d' = destinations d /\ referrals d' = referrals d /\
  seats d' = seats d /\
  Forall2 (fun r r' => r' = r \/
             (is_options = false /\
              exists p, payload_of body = Some p /\
                string_to_uuid (js_to_string (ext_reference p)) = Some (id r) /\
                booking_key_columns r' = booking_key_columns r /\
                updated_at r' = now /\
                status r' = (if is_paid (ext_status p) then Paid else status r)))
    (bookings d) (bookings d').
Proof.
  intros d'.
  assert (Hid : forall P : Booking -> Booking -> Prop, (forall r, P r r) ->
                forall t, Forall2 P t t).
  { intros P HP t. induction t; constructor; auto. }
  subst d'. unfold hubtel_webhook.
  destruct is_options eqn:Ho.
  { simpl. repeat split. apply Hid. intros r. left. reflexivity. }
  pose proof (webhook_core_shape body d now) as Hs.
  destruct (webhook_core body d now) as [[[rs x] o] pd]. simpl.
  destruct Hs as [[-> _]|[p [i [r [Hp [_ [Hu [Hf [Hri [_ ->]]]]]]]]]].
  { repeat split. apply Hid. intros y. left. reflexivity. }
  simpl. repeat split. apply Forall2_map_self.
  intros y Hy. destruct (id y =? i) eqn:Ey; [|left; reflexivity].
  right. apply Z.eqb_eq in Ey.
  pose proof (find_some _ _ Hf) as [Hr _].
  assert (y = r) as -> by (apply (nodup_id_eq (bookings d)); auto; congruence).
  split; [reflexivity|]. exists p.
  split; [exact Hp|]. split; [rewrite Hri; exact Hu|].
  split; [reflexivity|]. split; [reflexivity|].
  unfold apply_patch, webhook_updates. simpl.
  destruct (is_paid (ext_status p)); reflexivity.
Qed.

Lemma X5_witness :
  NoDup (map id (bookings (db_single Pending))) /\
  seats (snd (hubtel_webhook false (PObject paid_payload) (db_single Pending) 5)) =
    seats (db_single Pending).
Proof.
  assert (Hnd : NoDup (map id (bookings (db_single Pending))))
    by (repeat constructor; simpl; tauto).
  split; [exact Hnd|].
  exact (proj1 (proj2 (proj2 (proj2 (proj2
    (X5_webhook_frame false (PObject paid_payload) (db_single Pending) 5 Hnd)))))).
Defined.

(** X6. On a booking table satisfying the primary key and the unique
    index, the admin screen's buttons behave as follows. On a pending
    booking, "Mark Paid" and "Cancel" always succeed and the booking gets
    that status. On a cancelled booking, "Restore" fails with a unique
    violation exactly when another pending or paid booking holds its
    (bus, seat); otherwise it succeeds and the booking is pending again. *)
Theorem X6_admin_status_updates (d : DB) (r : Booking) (now : Z)
  (Hok : ledger_ok (bookings d)) (Hin : In r (bookings d)) :
  (status r = Pending -> forall s, In s (admin_actions Pending) ->
     exists d', updateBookingStatus d (id r) s now = Ok (d', Some (apply_patch now (mkPatch (Some s) None None) r)) /\
                status_of d' (id r) = Some s) /\
  (status r = Cancelled ->
     ((exists r2, In r2 (bookings d) /\ id r2 <> id r /\ bus_id r2 = bus_id r /\
                  seat_number r2 = seat_number r /\ in_active_index r2 = true) ->
      updateBookingStatus d (id r) Pending now = Err UniqueViolation) /\
     ((~ exists r2, In r2 (bookings d) /\ id r2 <> id r /\ bus_id r2 = bus_id r /\
                    seat_number r2 = seat_number r /\ in_active_index r2 = true) ->
      exists d', updateBookingStatus d (id r) Pending now = Ok (d', Some (apply_patch now (mkPatch (Some Pending) None None) r)) /\
                 status_of d' (id r) = Some Pending)).
Proof.
  split.
  - intros Hp s Hs. rewrite update_status_find by assumption. cbv zeta.
    destruct (index_conflict (bookings d) (apply_patch now (mkPatch (Some s) None None) r)) eqn:Hc.
    + exfalso. apply index_conflict_inv in Hc as [_ [r2 [Hr2 [Hne [Hb [Hsn Ha2]]]]]].
      apply (active_alone _ r r2 Hok Hin); auto. unfold in_active_index. rewrite Hp. reflexivity.
    + eexists. split; [reflexivity|]. apply status_of_replace; auto. exact (proj1 Hok).
  - intros Hc. split.
    + intros [r2 [Hr2 [Hne [Hb [Hsn Ha2]]]]]. rewrite update_status_find by assumption. cbv zeta.
      rewrite (conflict_found _ _ r2); auto.
    + intros Hno. rewrite update_status_find by assumption. cbv zeta.
      destruct (index_conflict (bookings d) (apply_patch now (mkPatch (Some Pending) None None) r)) eqn:Hx.
      * exfalso. apply index_conflict_inv in Hx as [_ [r2 H]]. apply Hno. exists r2. exact H.
      * eexists. split; [reflexivity|]. apply status_of_replace; auto. exact (proj1 Hok).
Qed.

Lemma X6_witness :
  (exists d', updateBookingStatus (db_single Pending) 100 Paid 5 =
                Ok (d', Some (apply_patch 5 (mkPatch (Some Paid) None None)
                                (booking100 Pending))) /\
              status_of d' 100 = Some Paid) /\
  updateBookingStatus db_rebooked 100 Pending 5 = Err UniqueViolation.
Proof.
  split.
  - assert (Hok : ledger_ok (bookings (db_single Pending))).
    { split; [repeat constructor; simpl; tauto|].
      intros b n. unfold count_active. simpl. destruct (holds b n _); simpl; lia. }
    apply (proj1 (X6_admin_status_updates (db_single Pending) (booking100 Pending) 5
                    Hok ltac:(left; reflexivity)) eq_refl Paid).
    left. reflexivity.
  - assert (Hok : ledger_ok (bookings db_rebooked)).
    { split; [repeat constructor; simpl; intuition discriminate|].
      intros b n. unfold count_active. cbn [bookings db_rebooked filter].
      unfold holds at 1. change (in_active_index (booking100 Cancelled)) with false.
      rewrite andb_false_r. destruct (holds b n _); simpl; lia. }
    apply (proj2 (X6_admin_status_updates db_rebooked (booking100 Cancelled) 5
                    Hok ltac:(left; reflexivity)) eq_refl).
    exists (mkBooking 101 "Yaw Boateng" "200" "yaw@example.com" "0271234567" "Esi"
       "0501234567" 2 3 busA seat5 None 8000 Pending None None 1 1).
    split; [right; left; reflexivity|]. simpl. repeat split; discriminate.
Defined.

(** X7. Cancelling a pending or paid booking on a table satisfying the
    primary key and the unique index always succeeds, and frees its seat:
    [get_seat_status] then reports the seat available to every caller,
    and the booking form of a signed-in caller can book it again for a new
    id with valid references. *)
Theorem X7_cancel_frees_seat (d : DB) (r : Booking) (now : Z)
  (Hok : ledger_ok (bookings d)) (Hin : In r (bookings d))
  (Hact : in_active_index r = true) :
  exists d',
    updateBookingStatus d (id r) Cancelled now =
      Ok (d', Some (apply_patch now (mkPatch (Some Cancelled) None None) r)) /\
    (forall role x, In x (get_seat_status role d' (bus_id r)) ->
       ss_seat_number x = seat_number r -> ss_status x = Available) /\
    (forall v amt fresh t,
       fv_bus_id v = bus_id r -> fv_seat_number v = seat_number r ->
       ~ In fresh (map id (bookings d')) ->
       fk_ok d' (booking_of_form v amt fresh t) = true ->
       onSubmit Authenticated d' v amt fresh t =
         Ok (with_bookings d' (bookings d' ++ [booking_of_form v amt fresh t]))).
Proof.
  set (r' := apply_patch now (mkPatch (Some Cancelled) None None) r).
  assert (Hc : index_conflict (bookings d) r' = false) by reflexivity.
  unfold updateBookingStatus, update_booking.
  rewrite (find_by_id_unique _ r (id r) (proj1 Hok) Hin eq_refl). fold r'. rewrite Hc.
  eexists. split; [reflexivity|].
  set (d' := with_bookings d (replace_row (id r) r' (bookings d))).
  assert (Hfree : forall x, In x (bookings d') -> holds (bus_id r) (seat_number r) x = false).
  { intros x Hx. apply in_replace_row in Hx as [ -> |[Hx Hne]];
      [unfold holds, r'; simpl; apply andb_false_r|].
    destruct (holds (bus_id r) (seat_number r) x) eqn:Eh; [|reflexivity].
    apply holds_key in Eh as [Hb [Hs Ha]].
    exfalso. exact (active_alone _ r x Hok Hin Hact Hx Hne Hb Hs Ha). }
  split.
  - intros role x Hx Hn. unfold get_seat_status in Hx.
    apply in_seat_status_view in Hx as [s [_ [Hsb ->]]].
    destruct (ss_status (seat_row_status _ s)) eqn:E; [reflexivity|].
    apply seat_row_status_taken in E as [b [Hb [Hbb [Hbs Hst]]]].
    assert (Hb' : In b (bookings d')).
    { simpl in Hb. unfold visible_bookings in Hb.
      destruct (can_read_bookings role); [exact Hb | destruct Hb]. }
    simpl in Hn. specialize (Hfree b Hb').
    unfold holds, in_active_index in Hfree.
    rewrite Hbb, Hsb, Hbs, <- Hn, !Z.eqb_refl in Hfree.
    destruct Hst as [Hst|Hst]; rewrite Hst in Hfree; discriminate.
  - intros v amt fresh t Hvb Hvs Hfresh Hfk.
    rewrite onSubmit_authenticated. unfold insert_booking.
    change (id (booking_of_form v amt fresh t)) with fresh.
    rewrite (fresh_existsb _ _ Hfresh), Hfk. simpl negb. cbn iota.
    rewrite free_key_no_conflict; [reflexivity|].
    apply count_active_zero. simpl. rewrite Hvb, Hvs. exact Hfree.
Qed.

Lemma X7_witness :
  exists d', updateBookingStatus (db_single Pending) 100 Cancelled 5 =
               Ok (d', Some (apply_patch 5 (mkPatch (Some Cancelled) None None)
                               (booking100 Pending))) /\
             get_seat_status Authenticated d' busA = [mkSeatStatus seat5 true Available] /\
             onSubmit Authenticated d' (form_for seat5) 8000 200 6 =
               Ok (with_bookings d' (bookings d' ++
                     [booking_of_form (form_for seat5) 8000 200 6])).
Proof.
  assert (Hok : ledger_ok (bookings (db_single Pending))).
  { split; [repeat constructor; simpl; tauto|].
    intros b n. unfold count_active. simpl. destruct (holds b n _); simpl; lia. }
  destruct (X7_cancel_frees_seat (db_single Pending) (booking100 Pending) 5 Hok
              ltac:(left; reflexivity) eq_refl) as [d' [Hu [_ Hsub]]].
  exists d'. split; [exact Hu|].
  assert (Hd : d' = with_bookings (db_single Pending)
                 [apply_patch 5 (mkPatch (Some Cancelled) None None) (booking100 Pending)]).
  { vm_compute in Hu. injection Hu as <-. reflexivity. }
  split; [rewrite Hd; vm_compute; reflexivity|].
  apply Hsub; [reflexivity | reflexivity | rewrite Hd; simpl; lia | rewrite Hd; vm_compute; reflexivity].
Defined.

(** ** The seat map *)

Lemma rows_of_four_ind (P : list SeatStatus -> Prop) :
  P [] -> (forall a, P [a]) -> (forall a b, P [a; b]) -> (forall a b c, P [a; b; c]) ->
  (forall a b c d rest, P rest -> P (a :: b :: c :: d :: rest)) -> forall l, P l.
Proof.
  intros H0 H1 H2 H3 H4 l.
  assert (forall n l, (List.length l <= n)%nat -> P l) as H by
    (induction n as [|n IH]; intros [|a [|b [|c [|d rest]]]] Hl; simpl in Hl;
     try lia; auto; apply H4, IH; lia).
  exact (H _ l (le_n _)).
Qed.

Lemma rows_of_four_flat (l : list SeatStatus) :
  flat_map rendered_row (rows_of_four l) = l.
Proof.
  induction l using rows_of_four_ind; try reflexivity.
  simpl. rewrite IHl. reflexivity.
Qed.

Lemma rows_of_four_lengths (l : list SeatStatus) (k : nat) (row : list SeatStatus) :
  nth_error (rows_of_four l) k = Some row ->
  (1 <= List.length row <= 4)%nat /\ ((S k < List.length (rows_of_four l))%nat -> List.length row = 4%nat).
Proof.
  revert k. induction l using rows_of_four_ind; intros k Hk;
    try (destruct k as [|[|k]]; simpl in Hk; try discriminate; injection Hk as <-; simpl; lia).
  destruct k as [|k]; simpl in Hk.
  - injection Hk as <-. simpl. lia.
  - destruct (IHl k Hk) as [H1 H2]. split; [exact H1|]. simpl. intros H. apply H2. lia.
Qed.

Lemma div4_step (j : nat) : (S (S (S (S j))) / 4 = S (j / 4))%nat.
Proof.
  replace (S (S (S (S j)))) with (j + 1 * 4)%nat by lia.
  rewrite Nat.div_add by lia. lia.
Qed.

Lemma mod4_step (j : nat) : (S (S (S (S j))) mod 4 = j mod 4)%nat.
Proof.
  replace (S (S (S (S j)))) with (j + 1 * 4)%nat by lia.
  apply Nat.Div0.mod_add.
Qed.

Lemma rows_of_four_nth (l : list SeatStatus) (j : nat) :
  nth_error l j =
    match nth_error (rows_of_four l) (j / 4) with
    | Some row => nth_error row (j mod 4)
    | None => None
    end.
Proof.
  revert j. induction l as [| | | |a b c d rest IH] using rows_of_four_ind; intros j.
  5: { destruct j as [|[|[|[|j]]]]; try reflexivity.
       rewrite div4_step, mod4_step. simpl. apply IH. }
  all: destruct j as [|[|[|[|j]]]]; try reflexivity;
       rewrite div4_step; simpl; rewrite ?nth_error_nil; try reflexivity; destruct (j / 4)%nat; reflexivity.
Qed.

(** X8. The seat map shows every seat it is given exactly once, in
    seat-number order: front to back, row by row, left pair then right
    pair. Every row has one to four seats, all rows but the last have
    four, and the seat at position [j] of the sorted list is in row
    [j / 4] at place [j mod 4]. *)
Theorem X8_seat_layout (seats : list SeatStatus) :
  rendered_seats seats = order_by_seat seats /\
  Permutation (rendered_seats seats) seats /\
  (forall k row, nth_error (seat_layout seats) k = Some row ->
     (1 <= List.length row <= 4)%nat /\
     ((S k < List.length (seat_layout seats))%nat -> List.length row = 4%nat)) /\
  (forall j, nth_error (order_by_seat seats) j =
     match nth_error (seat_layout seats) (j / 4) with
     | Some row => nth_error row (j mod 4)
     | None => None
     end).
Proof.
  unfold rendered_seats, seat_layout. rewrite rows_of_four_flat.
  split; [reflexivity|]. split; [apply order_by_seat_perm|].
  split; [apply rows_of_four_lengths | apply rows_of_four_nth].
Qed.

Lemma fresh_bus_view_sorted (s n : nat) :
  StronglySorted seat_lt (map (fun k => mkSeatStatus (Z.of_nat k) true Available) (seq s n)).
Proof.
  revert s. induction n as [|n IH]; intros s; simpl; constructor; [apply IH|].
  apply Forall_forall. intros x Hx. apply in_map_iff in Hx as [k [<- Hk]].
  apply in_seq in Hk. unfold seat_lt. simpl. lia.
Qed.

Lemma order_by_seat_sorted_id (l : list SeatStatus) :
  StronglySorted seat_lt l -> order_by_seat l = l.
Proof.
  intros Hs. apply sorted_perm_eq; [| exact Hs | apply order_by_seat_perm].
  apply order_by_seat_sorted.
  induction Hs as [|x l Hs IH Hf]; simpl; constructor; [|exact IH].
  intros Hin. apply in_map_iff in Hin as [y [Hy Hyl]].
  rewrite Forall_forall in Hf. specialize (Hf y Hyl). unfold seat_lt in Hf. lia.
Qed.

(** X9. On a bus whose seats are exactly those the seed creates,
    [1..n] all active, and which has no pending or paid booking,
    [get_seat_status], whoever calls it, lists the seats [1..n] in order, all active and
    available, and the seat map shows seat [k] in row [(k - 1) / 4] at
    place [(k - 1) mod 4], selectable. *)
Theorem X9_seeded_bus (role : Role) (d : DB) (B : Z) (n : nat)
  (Hseed : Permutation (filter (fun s => seat_bus_id s =? B) (seats d)) (seed_seats B n))
  (Hfree : forall b, In b (bookings d) -> bus_id b = B -> in_active_index b = false) :
  get_seat_status role d B = fresh_bus_view n /\
  forall k, (1 <= k <= n)%nat ->
    exists row x, nth_error (seat_layout (get_seat_status role d B)) ((k - 1) / 4) = Some row /\
                  nth_error row ((k - 1) mod 4) = Some x /\
                  ss_seat_number x = Z.of_nat k /\ seat_selectable x = true.
Proof.
  set (dr := with_bookings d (visible_bookings role d)).
  assert (Hfr : forall b, In b (bookings dr) -> bus_id b = B -> in_active_index b = false).
  { intros b Hb. unfold dr in Hb. simpl in Hb. unfold visible_bookings in Hb.
    destruct (can_read_bookings role); [exact (Hfree b Hb) | destruct Hb]. }
  change (seats d) with (seats dr) in Hseed. clear Hfree.
  assert (Hview : map (seat_row_status dr) (seed_seats B n) = fresh_bus_view n).
  { unfold seed_seats, fresh_bus_view. rewrite map_map. apply map_ext_in.
    intros k _. unfold seat_row_status. simpl. f_equal.
    destruct (existsb _ _) eqn:E; [|reflexivity].
    apply existsb_exists in E as [b [Hb E]].
    apply andb_prop in E as [E Ha]. apply andb_prop in E as [Eb _].
    apply Z.eqb_eq in Eb. rewrite (Hfr b Hb Eb) in Ha. discriminate. }
  assert (Hperm : Permutation (map (seat_row_status dr)
                    (filter (fun s => seat_bus_id s =? B) (seats dr))) (fresh_bus_view n)).
  { rewrite <- Hview. apply Permutation_map. exact Hseed. }
  assert (Hnd : NoDup (map ss_seat_number (fresh_bus_view n))).
  { unfold fresh_bus_view. rewrite map_map. simpl.
    apply (NoDup_map_inv Z.to_nat). rewrite map_map.
    rewrite (map_ext_in _ (fun x => x)) by (intros; apply Nat2Z.id).
    rewrite map_id. apply seq_NoDup. }
  assert (Hget : get_seat_status role d B = fresh_bus_view n).
  { apply sorted_perm_eq; [| apply fresh_bus_view_sorted |].
    - apply order_by_seat_sorted.
      eapply Permutation_NoDup; [|exact Hnd].
      apply Permutation_map. apply Permutation_sym. exact Hperm.
    - unfold get_seat_status, seat_status_view. fold dr. eapply perm_trans; [apply order_by_seat_perm|exact Hperm]. }
  split; [exact Hget|].
  intros k Hk. rewrite Hget. unfold seat_layout.
  rewrite order_by_seat_sorted_id by apply fresh_bus_view_sorted.
  pose proof (rows_of_four_nth (fresh_bus_view n) (k - 1)) as E.
  assert (Hnth : nth_error (fresh_bus_view n) (k - 1) =
                 Some (mkSeatStatus (Z.of_nat k) true Available)).
  { unfold fresh_bus_view. rewrite nth_error_map, nth_error_seq.
    destruct (Nat.ltb_spec (k - 1) n); [|lia]. simpl. do 3 f_equal. lia. }
  rewrite Hnth in E.
  destruct (nth_error (rows_of_four (fresh_bus_view n)) ((k - 1) / 4)) as [row|];
    [|discriminate].
  exists row, (mkSeatStatus (Z.of_nat k) true Available).
  repeat split; auto.
Qed.

Lemma X9_witness :
  Permutation (filter (fun s => seat_bus_id s =? busA) (seats db_seeded))
    (seed_seats busA 32) /\
  get_seat_status Authenticated db_seeded busA = fresh_bus_view 32.
Proof.
  assert (Hs : Permutation (filter (fun s => seat_bus_id s =? busA) (seats db_seeded))
                 (seed_seats busA 32)) by (vm_compute; apply Permutation_refl).
  split; [exact Hs|].
  apply (X9_seeded_bus Authenticated db_seeded busA 32 Hs). simpl. intros b [].
Defined.

(** ** What the booking form inserts *)

(** X10. [onSubmit] sends the amount the page computed and nothing checks
    it: for two amounts in the range of [NUMERIC(10,2)], the same form
    gives the same outcome, whoever submits it: the same error or an
    insert of the same row that differs only in its amount. *)
Theorem X10_amount_unchecked (role : Role) (d : DB) (v : FormValues) (amt amt' fresh now : Z)
  (Hr : Z.abs amt < 10 ^ 10) (Hr' : Z.abs amt' < 10 ^ 10) :
  match onSubmit role d v amt fresh now, onSubmit role d v amt' fresh now with
  | Ok d1, Ok d2 =>
      d1 = with_bookings d (bookings d ++ [booking_of_form v amt fresh now]) /\
      d2 = with_bookings d (bookings d ++ [booking_of_form v amt' fresh now])
  | Err e1, Err e2 => e1 = e2
  | _, _ => False
  end.
Proof.
  unfold onSubmit, insert_returning.
  destruct (can_read_bookings role); [|reflexivity].
  unfold insert_booking.
  change (id (booking_of_form v amt fresh now)) with (id (booking_of_form v amt' fresh now)).
  change (fk_ok d (booking_of_form v amt fresh now)) with (fk_ok d (booking_of_form v amt' fresh now)).
  rewrite (index_conflict_key (bookings d) (booking_of_form v amt fresh now)
             (booking_of_form v amt' fresh now)) by reflexivity.
  destruct (existsb _ _); [reflexivity|].
  destruct (negb _); [reflexivity|].
  destruct (index_conflict _ _); [reflexivity|].
  split; reflexivity.
Qed.

Lemma X10_witness :
  Z.abs (-500) < 10 ^ 10 /\ Z.abs 8000 < 10 ^ 10 /\
  match onSubmit Authenticated db0 (form_for 1) (-500) 200 6,
        onSubmit Authenticated db0 (form_for 1) 8000 200 6 with
  | Ok d1, Ok d2 =>
      d1 = with_bookings db0 (bookings db0 ++ [booking_of_form (form_for 1) (-500) 200 6]) /\
      d2 = with_bookings db0 (bookings db0 ++ [booking_of_form (form_for 1) 8000 200 6])
  | Err e1, Err e2 => e1 = e2
  | _, _ => False
  end.
Proof.
  split; [lia|]. split; [lia|].
  apply X10_amount_unchecked; lia.
Defined.

(** ** Phone numbers for the SMS *)

(** X11. [normalizeGhanaMsisdn] keeps the digits and plus signs of its
    input; when these read [0] followed by at least nine more characters,
    or [233...], or [+233...], it returns [233] followed by the rest. *)
Theorem X11_msisdn_forms (s : string) (n : list ascii)
  (Hs : let kept := filter (fun c => is_digit c || Ascii.eqb c "+"%char)
                      (list_ascii_of_string s) in
        (kept = "0"%char :: n /\ (9 <= List.length n)%nat) \/
        kept = ["2"; "3"; "3"]%char ++ n \/
        kept = ["+"; "2"; "3"; "3"]%char ++ n) :
  normalizeGhanaMsisdn s = Some (string_of_list_ascii (["2"; "3"; "3"]%char ++ n)).
Proof.
  unfold normalizeGhanaMsisdn. cbv zeta in Hs.
  destruct (String.eqb s EmptyString) eqn:E.
  { apply String.eqb_eq in E. subst s. simpl in Hs.
    destruct Hs as [[H _]|[H|H]]; discriminate. }
  cbv zeta.
  destruct Hs as [[H Hlen]|[H|H]]; rewrite H.
  - assert (Hle : (10 <=? List.length ("0"%char :: n))%nat = true)
      by (apply Nat.leb_le; simpl; lia).
    rewrite Hle. reflexivity.
  - reflexivity.
  - reflexivity.
Qed.

Lemma X11_witness :
  (let kept := filter (fun c => is_digit c || Ascii.eqb c "+"%char)
                 (list_ascii_of_string "(024) 123-4567") in
   (kept = "0"%char :: list_ascii_of_string "241234567" /\
    (9 <= List.length (list_ascii_of_string "241234567"))%nat) \/
   kept = ["2"; "3"; "3"]%char ++ list_ascii_of_string "241234567" \/
   kept = ["+"; "2"; "3"; "3"]%char ++ list_ascii_of_string "241234567") /\
  normalizeGhanaMsisdn "(024) 123-4567" = Some "233241234567"%string.
Proof.
  assert (H : let kept := filter (fun c => is_digit c || Ascii.eqb c "+"%char)
                 (list_ascii_of_string "(024) 123-4567") in
   (kept = "0"%char :: list_ascii_of_string "241234567" /\
    (9 <= List.length (list_ascii_of_string "241234567"))%nat) \/
   kept = ["2"; "3"; "3"]%char ++ list_ascii_of_string "241234567" \/
   kept = ["+"; "2"; "3"; "3"]%char ++ list_ascii_of_string "241234567").
  { left. split; [vm_compute; reflexivity | simpl; lia]. }
  split; [exact H|]. exact (X11_msisdn_forms _ _ H).
Defined.

(** ** The CSV export *)

Lemma list_ascii_of_string_app (s1 s2 : string) :
  list_ascii_of_string (s1 ++ s2) = list_ascii_of_string s1 ++ list_ascii_of_string s2.
Proof. induction s1 as [|c s1 IH]; simpl; [reflexivity|]. rewrite IH. reflexivity. Qed.

Lemma concat_join (c : ascii) (l : list string) :
  list_ascii_of_string (String.concat (String c EmptyString) l) =
  join_on c (map list_ascii_of_string l).
Proof.
  induction l as [|x [|y l] IH]; [reflexivity|reflexivity|].
  change (String.concat (String c EmptyString) (x :: y :: l)) with
    (x ++ String c EmptyString ++ String.concat (String c EmptyString) (y :: l))%string.
  rewrite !list_ascii_of_string_app, IH. reflexivity.
Qed.

Lemma split_on_app (sep : ascii) (w r : list ascii) :
  ~ In sep w -> split_on sep (w ++ sep :: r) = w :: split_on sep r.
Proof.
  induction w as [|c w IH]; intros Hw; simpl.
  - rewrite Ascii.eqb_refl. reflexivity.
  - destruct (Ascii.eqb_spec c sep) as [->|Hne]; [exfalso; apply Hw; left; reflexivity|].
    rewrite IH by (intros H; apply Hw; right; exact H). reflexivity.
Qed.

Lemma split_on_free (sep : ascii) (w : list ascii) :
  ~ In sep w -> split_on sep w = [w].
Proof.
  induction w as [|c w IH]; intros Hw; simpl; [reflexivity|].
  destruct (Ascii.eqb_spec c sep) as [->|Hne]; [exfalso; apply Hw; left; reflexivity|].
  rewrite IH by (intros H; apply Hw; right; exact H). reflexivity.
Qed.

Lemma split_join (sep : ascii) (ws : list (list ascii)) :
  ws <> [] -> (forall w, In w ws -> ~ In sep w) -> split_on sep (join_on sep ws) = ws.
Proof.
  induction ws as [|w [|w' ws] IH]; intros Hne Hw; [congruence| |].
  - apply split_on_free. apply Hw. left. reflexivity.
  - change (join_on sep (w :: w' :: ws)) with (w ++ sep :: join_on sep (w' :: ws)).
    rewrite split_on_app by (apply Hw; left; reflexivity).
    rewrite IH; [reflexivity | discriminate |].
    intros x Hx. apply Hw. right. exact Hx.
Qed.

Lemma in_join (sep c : ascii) (ws : list (list ascii)) :
  In c (join_on sep ws) -> c = sep \/ exists w, In w ws /\ In c w.
Proof.
  induction ws as [|w [|w' ws] IH]; simpl; [tauto| |].
  - intros H. right. exists w. auto.
  - intros H. apply in_app_or in H as [H|[H|H]].
    + right. exists w. auto.
    + left. auto.
    + destruct (IH H) as [E|[x [Hx Hc]]]; [left; exact E|].
      right. exists x. split; [right; exact Hx | exact Hc].
Qed.

Lemma dec_digits_chars (fuel : nat) (n : Z) (acc : list ascii) (c : ascii) :
  In c (dec_digits fuel n acc) -> In c acc \/ In c (map (fun k => ascii_of_nat (48 + k)) (seq 0 10)).
Proof.
  revert n acc. induction fuel as [|f IH]; intros n acc H; cbn [dec_digits] in H;
    [left; exact H|].
  assert (Hd : In (ascii_of_nat (48 + Z.to_nat (n mod 10)))
                  (map (fun k => ascii_of_nat (48 + k)) (seq 0 10))).
  { apply (in_map (fun k => ascii_of_nat (48 + k))). apply in_seq.
    pose proof (Z.mod_pos_bound n 10). lia. }
  destruct (n <? 10).
  - destruct H as [<-|H]; [right; exact Hd | left; exact H].
  - destruct (IH _ _ H) as [[<-|H']|H']; auto.
Qed.

Lemma digit_plain (c : ascii) :
  In c (map (fun k => ascii_of_nat (48 + k)) (seq 0 10)) -> plain_char c.
Proof.
  simpl. intros H. repeat (destruct H as [<-|H]; [split; discriminate|]). destruct H.
Qed.

Lemma z_to_dec_plain (z : Z) (c : ascii) :
  In c (list_ascii_of_string (z_to_dec z)) -> plain_char c.
Proof.
  unfold z_to_dec.
  assert (Hds : forall fuel a, In c (list_ascii_of_string
                  (string_of_list_ascii (dec_digits fuel a []))) -> plain_char c).
  { intros fuel a H. rewrite list_ascii_of_string_of_list_ascii in H.
    destruct (dec_digits_chars _ _ _ _ H) as [[]|H']. apply digit_plain. exact H'. }
  destruct (z <? 0); [|apply Hds].
  intros H. change (In c ("-"%char :: list_ascii_of_string (string_of_list_ascii
    (dec_digits (S (Z.to_nat (Z.log2 (Z.abs z)))) (Z.abs z) [])))) in H.
  destruct H as [<-|H]; [split; discriminate | exact (Hds _ _ H)].
Qed.

Lemma hundredths_plain (z : Z) (c : ascii) :
  In c (list_ascii_of_string (js_hundredths_text z)) -> plain_char c.
Proof.
  unfold js_hundredths_text. intros H.
  repeat rewrite list_ascii_of_string_app in H.
  repeat (apply in_app_or in H as [H|H]);
    repeat match goal with
    | H : In c (list_ascii_of_string (if ?b then _ else _)) |- _ => destruct b
    | H : In c (list_ascii_of_string (_ ++ _)) |- _ =>
        rewrite list_ascii_of_string_app in H; apply in_app_or in H as [H|H]
    end;
    try (eapply z_to_dec_plain; exact H);
    simpl in H; repeat (destruct H as [<-|H]; [split; discriminate|]); destruct H.
Qed.

Lemma hex_char_plain (n : Z) : 0 <= n < 16 -> plain_char (hex_char n).
Proof.
  intros H. apply hex_digit_cases in H. simpl in H.
  repeat (destruct H as [<-|H]; [split; discriminate|]). destruct H.
Qed.

Lemma uuid_text_plain (v : Z) (c : ascii) :
  In c (list_ascii_of_string (uuid_text v)) -> plain_char c.
Proof.
  rewrite uuid_text_bytes. intros H. apply in_flat_map in H as [j [_ H]].
  unfold byte_chars in H. apply in_app_or in H as [H|H].
  - destruct H as [<-|[<-|[]]]; apply hex_char_plain, Z.mod_pos_bound; lia.
  - destruct (existsb _ _); [destruct H as [<-|[]]; split; discriminate | destruct H].
Qed.

Lemma csv_safe_plain (f : string) (c : ascii) :
  csv_safe f = true -> In c (list_ascii_of_string f) -> plain_char c.
Proof.
  unfold csv_safe. rewrite negb_true_iff. intros Hf Hc.
  destruct (Ascii.eqb_spec c comma) as [E|E].
  - exfalso. assert (existsb (fun c => Ascii.eqb c comma || Ascii.eqb c newline_char)
                       (list_ascii_of_string f) = true) as Hx; [|congruence].
    apply existsb_exists. exists c. split; [exact Hc|]. rewrite E, Ascii.eqb_refl. reflexivity.
  - destruct (Ascii.eqb_spec c newline_char) as [E'|E']; [|split; assumption].
    exfalso. assert (existsb (fun c => Ascii.eqb c comma || Ascii.eqb c newline_char)
                       (list_ascii_of_string f) = true) as Hx; [|congruence].
    apply existsb_exists. exists c. split; [exact Hc|]. rewrite E', Ascii.eqb_refl, orb_true_r.
    reflexivity.
Qed.

Lemma csv_fields_plain (env : SmsEnv) (date : Z -> string) (b : Booking) (f : string) (c : ascii) :
  forallb csv_safe (csv_text_fields env date b) = true ->
  In f (csv_fields env date b) -> In c (list_ascii_of_string f) -> plain_char c.
Proof.
  intros Hs Hf Hc. unfold csv_text_fields in Hs. simpl in Hs.
  repeat rewrite andb_true_iff in Hs.
  destruct Hs as [H1 [H2 [H3 [H4 [H5 [H6 [H7 [H8 _]]]]]]]].
  simpl in Hf.
  destruct Hf as [<-|Hf]; [exact (uuid_text_plain _ _ Hc)|].
  destruct Hf as [<-|Hf]; [exact (csv_safe_plain _ _ H1 Hc)|].
  destruct Hf as [<-|Hf]; [exact (csv_safe_plain _ _ H2 Hc)|].
  destruct Hf as [<-|Hf]; [exact (csv_safe_plain _ _ H3 Hc)|].
  destruct Hf as [<-|Hf]; [exact (csv_safe_plain _ _ H4 Hc)|].
  destruct Hf as [<-|Hf]; [exact (csv_safe_plain _ _ H5 Hc)|].
  destruct Hf as [<-|Hf]; [exact (csv_safe_plain _ _ H6 Hc)|].
  destruct Hf as [<-|Hf]; [exact (csv_safe_plain _ _ H7 Hc)|].
  destruct Hf as [<-|Hf]; [exact (z_to_dec_plain _ _ Hc)|].
  destruct Hf as [<-|Hf]; [exact (hundredths_plain _ _ Hc)|].
  destruct Hf as [<-|Hf].
  { destruct (status b); simpl in Hc;
      repeat (destruct Hc as [<-|Hc]; [split; discriminate|]); destruct Hc. }
  destruct Hf as [<-|[]]. exact (csv_safe_plain _ _ H8 Hc).
Qed.

Lemma csv_line_split (fs : list string) :
  fs <> [] ->
  (forall f c, In f fs -> In c (list_ascii_of_string f) -> plain_char c) ->
  ~ In newline_char (list_ascii_of_string (String.concat "," fs)) /\
  split_on comma (list_ascii_of_string (String.concat "," fs)) = map list_ascii_of_string fs.
Proof.
  intros Hne Hp. change ","%string with (String comma EmptyString). rewrite concat_join.
  split.
  - intros H. apply in_join in H as [E|[w [Hw Hc]]]; [discriminate|].
    apply in_map_iff in Hw as [f [<- Hf]]. exact (proj2 (Hp f _ Hf Hc) eq_refl).
  - destruct fs as [|f0 fs]; [congruence|].
    apply split_join; [discriminate|].
    intros w Hw Hc. apply in_map_iff in Hw as [f [<- Hf]]. exact (proj1 (Hp f _ Hf Hc) eq_refl).
Qed.

(** X12. When no text field of an exported booking (name, email, phone,
    class, place and bus names, date) contains a comma or a line break, the
    CSV text [exportBookings] builds splits back, at line breaks and then at
    commas, into the header and, for each booking in order, its twelve
    fields. *)
Theorem X12_export_csv_round_trip (env : SmsEnv) (date : Z -> string) (rows : list Booking)
  (Hsafe : forallb (fun b => forallb csv_safe (csv_text_fields env date b)) rows = true) :
  map (split_on comma) (split_on newline_char (list_ascii_of_string (exportBookings env date rows))) =
  map (map list_ascii_of_string) (csv_header :: map (csv_fields env date) rows).
Proof.
  unfold exportBookings, newline. fold newline_char. rewrite concat_join.
  assert (Hrows : forall b, In b rows -> forall f c, In f (csv_fields env date b) ->
                    In c (list_ascii_of_string f) -> plain_char c).
  { intros b Hb f c. apply csv_fields_plain.
    rewrite forallb_forall in Hsafe. exact (Hsafe b Hb). }
  assert (Hhead : forall f c, In f csv_header -> In c (list_ascii_of_string f) -> plain_char c).
  { intros f c Hf Hc. simpl in Hf.
    repeat (destruct Hf as [<-|Hf];
            [simpl in Hc; repeat (destruct Hc as [<-|Hc]; [split; discriminate|]); destruct Hc|]).
    destruct Hf. }
  rewrite split_join.
  - cbn [map]. rewrite (proj2 (csv_line_split csv_header ltac:(unfold csv_header; discriminate) Hhead)). f_equal.
    rewrite !map_map. apply map_ext_in. intros b Hb.
    exact (proj2 (csv_line_split (csv_fields env date b) ltac:(unfold csv_fields; discriminate) (Hrows b Hb))).
  - discriminate.
  - intros w Hw. apply in_map_iff in Hw as [l [<- Hl]].
    destruct Hl as [<-|Hl]; [exact (proj1 (csv_line_split csv_header ltac:(unfold csv_header; discriminate) Hhead))|].
    apply in_map_iff in Hl as [b [<- Hb]]. exact (proj1 (csv_line_split (csv_fields env date b) ltac:(unfold csv_fields; discriminate) (Hrows b Hb))).
Qed.

Lemma X12_witness :
  forallb (fun b => forallb csv_safe (csv_text_fields sms_env0 date0 b)) [booking100 Paid]  = true /\
  map (split_on comma) (split_on newline_char
    (list_ascii_of_string (exportBookings sms_env0 date0 [booking100 Paid]))) =
  map (map list_ascii_of_string)
    (csv_header :: map (csv_fields sms_env0 date0) [booking100 Paid]).
Proof.
  split; [vm_compute; reflexivity|].
  apply X12_export_csv_round_trip. vm_compute. reflexivity.
Defined.

(** ** The admin search *)

Lemma prefix_refl (s : string) : prefix s s = true.
Proof.
  induction s as [|a s IH]; [reflexivity|]. simpl.
  destruct (ascii_dec a a) as [_|n]; [exact IH | congruence].
Qed.

Lemma includes_refl (s : string) : includes s s = true.
Proof. destruct s; [reflexivity|]. unfold includes. rewrite prefix_refl. reflexivity. Qed.

Lemma hex_char_lower (n : Z) : 0 <= n < 16 -> latin1_lower (hex_char n) = hex_char n.
Proof.
  intros H. apply hex_digit_cases in H. simpl in H.
  repeat (destruct H as [<-|H]; [reflexivity|]). destruct H.
Qed.

Lemma to_lower_uuid_text (v : Z) : to_lower (uuid_text v) = uuid_text v.
Proof.
  unfold to_lower. rewrite <- (string_of_list_ascii_of_string (uuid_text v)) at 2.
  f_equal. rewrite <- (map_id (list_ascii_of_string (uuid_text v))) at 2.
  apply map_ext_in. intros c Hc. rewrite uuid_text_bytes in Hc.
  apply in_flat_map in Hc as [j [_ Hc]]. unfold byte_chars in Hc.
  apply in_app_or in Hc as [Hc|Hc].
  - destruct Hc as [<-|[<-|[]]]; apply hex_char_lower, Z.mod_pos_bound; lia.
  - destruct (existsb _ _); [destruct Hc as [<-|[]]; reflexivity | destruct Hc].
Qed.

(** X13. The admin search keeps only bookings of the list it filters;
    with a status filter other than "all" it keeps
    only bookings of that status; with an empty search and "all" it keeps
    every booking; and searching for a booking's id as printed, in any
    letter case, keeps that booking unless the status filter excludes it. *)
Theorem X13_filter_bookings (bs : list Booking) (t f : string) :
  incl (filterBookings bs t f) bs /\
  (f <> "all"%string -> forall b, In b (filterBookings bs t f) -> status_text (status b) = f) /\
  (t = EmptyString -> f = "all"%string -> filterBookings bs t f = bs) /\
  (forall b, In b bs -> to_lower t = uuid_text (id b) ->
             f = "all"%string \/ f = status_text (status b) -> In b (filterBookings bs t f)).
Proof.
  unfold filterBookings. repeat apply conj.
  - intros b Hb. destruct (String.eqb t EmptyString), (String.eqb f "all");
      repeat (apply filter_In in Hb as [Hb _]); exact Hb.
  - intros Hf b Hb. apply String.eqb_neq in Hf. rewrite Hf in Hb.
    apply filter_In in Hb as [_ Hb]. apply String.eqb_eq. exact Hb.
  - intros -> ->. reflexivity.
  - intros b Hb Ht Hf.
    assert (H1 : In b (if String.eqb t EmptyString then bs else filter (fun b =>
           includes (to_lower (full_name b)) (to_lower t) ||
           includes (to_lower (email b)) (to_lower t) ||
           includes (phone b) t ||
           includes (to_lower (uuid_text (id b))) (to_lower t)) bs)).
    { destruct (String.eqb t EmptyString); [exact Hb|].
      apply filter_In. split; [exact Hb|].
      rewrite Ht, to_lower_uuid_text, includes_refl, !orb_true_r. reflexivity. }
    destruct Hf as [-> | ->]; [exact H1|].
    destruct (String.eqb (status_text (status b)) "all") eqn:E; [exact H1|].
    apply filter_In. split; [exact H1 | apply String.eqb_refl].
Qed.
